(** * FunPayAPI: message parsing, account attributes, send_message throttling,
      private chat ids and category setup.

    A shallow embedding of [FunPayAPI/common/parser.py], the account mixins and
    [FunPayAPI/async_account.py].  Python strings are lists of code points,
    dicts are stdpp [gmap]s, raised exceptions are the [PyRaise] branch of a
    small exception monad.  HTML is not parsed here: a message's markup is the
    record of the results of the BeautifulSoup queries the parser performs on
    it. *)

From Stdlib Require Import ZArith Ascii String.
From stdpp Require Import base gmap list strings.

Open Scope Z_scope.

(* ------------------------------------------------------------------ *)
(** ** Python values: exceptions, strings *)

Module Py.

(** Exceptions that the modelled code raises. *)
Inductive PyExc :=
| AttributeError
| KeyError
| ValueError
| TypeError
| JSONDecodeError
| IndexError
| UnauthorizedError
| AccountNotInitiatedError
| RequestFailedError
| MessageNotDeliveredError (error_text : option (list Z)).

(** A computation that returns a value or raises. *)
Inductive PyResult (A : Type) :=
| PyOk (a : A)
| PyRaise (e : PyExc).
Arguments PyOk {A} a.
Arguments PyRaise {A} e.

Global Instance pyresult_ret : MRet PyResult := fun A a => PyOk a.
Global Instance pyresult_bind : MBind PyResult := fun A B f m =>
  match m with PyOk a => f a | PyRaise e => PyRaise e end.

(** A Python [str]: its sequence of code points. *)
Abbreviation pystr := (list Z).

Fixpoint bytes_of_string (s : string) : list Z :=
  match s with
  | EmptyString => []
  | String c s' => Z.of_nat (nat_of_ascii c) :: bytes_of_string s'
  end.

(** UTF-8 decoding of the bytes of a Rocq string literal. *)
Fixpoint utf8_decode (bs : list Z) : list Z :=
  match bs with
  | [] => []
  | b :: rest =>
      if b <? 128 then b :: utf8_decode rest
      else if b <? 224 then
        match rest with
        | c :: r => ((b - 192) * 64 + (c - 128)) :: utf8_decode r
        | [] => []
        end
      else if b <? 240 then
        match rest with
        | c :: d :: r => ((b - 224) * 4096 + (c - 128) * 64 + (d - 128)) :: utf8_decode r
        | _ => []
        end
      else
        match rest with
        | c :: d :: e :: r =>
            ((b - 240) * 262144 + (c - 128) * 4096 + (d - 128) * 64 + (e - 128))
              :: utf8_decode r
        | _ => []
        end
  end.

(** The Python string written as the literal [s]. *)
Definition u (s : string) : pystr := utf8_decode (bytes_of_string s).

(** [str.isspace] on one code point. *)
Definition is_space (c : Z) : bool :=
  ((9 <=? c) && (c <=? 13)) || ((28 <=? c) && (c <=? 32)) || (c =? 133) || (c =? 160)
  || (c =? 5760) || ((8192 <=? c) && (c <=? 8202)) || (c =? 8232) || (c =? 8233)
  || (c =? 8239) || (c =? 8287) || (c =? 12288).

Fixpoint lstrip (s : pystr) : pystr :=
  match s with
  | c :: s' => if is_space c then lstrip s' else s
  | [] => []
  end.

(** [str.strip()]. *)
Definition strip (s : pystr) : pystr := rev (lstrip (rev (lstrip s))).

(** [s.startswith(p)]. *)
Fixpoint startswith (s p : pystr) : bool :=
  match p, s with
  | [], _ => true
  | c :: p', d :: s' => (c =? d) && startswith s' p'
  | _ :: _, [] => false
  end.

(** [p in s] for strings. *)
Fixpoint contains (s p : pystr) : bool :=
  match s with
  | [] => startswith [] p
  | _ :: s' => startswith s p || contains s' p
  end.

(** [s[1:]]. *)
Definition drop1 (s : pystr) : pystr := tail s.

(** [str.lower()] on the Latin and Cyrillic capitals (A-Z, U+0400-U+042F);
    other code points are left as they are. *)
Definition lower_cp (c : Z) : Z :=
  if (65 <=? c) && (c <=? 90) then c + 32
  else if (1040 <=? c) && (c <=? 1071) then c + 32
  else if (1024 <=? c) && (c <=? 1039) then c + 80
  else c.
Definition lower (s : pystr) : pystr := map lower_cp s.

Definition str_eqb (s t : pystr) : bool := bool_decide (s = t).

(** [s in (t1, t2, ...)]. *)
Definition str_in (s : pystr) (ts : list pystr) : bool := existsb (str_eqb s) ts.

(** Truthiness of an optional string ([None] and [""] are falsy). *)
Definition truthy (s : option pystr) : bool :=
  match s with Some (_ :: _) => true | _ => false end.

Definition is_none {A} (o : option A) : bool :=
  match o with None => true | Some _ => false end.

(** [str(n)] for an int. *)
Fixpoint digits_pos (fuel : nat) (n : Z) (acc : pystr) : pystr :=
  match fuel with
  | O => acc
  | S f => if n <? 10 then (48 + n) :: acc else digits_pos f (n / 10) ((48 + n mod 10) :: acc)
  end.
Definition str_of_int (n : Z) : pystr :=
  if n <? 0 then 45 :: digits_pos (Z.to_nat (Z.log2_up (- n) + 1)) (- n) []
  else digits_pos (Z.to_nat (Z.log2_up n + 1)) n [].

End Py.
Import Py.

(* ------------------------------------------------------------------ *)
(** ** Message types and records *)

Module Types.

(** [types.MessageTypes] (the enums module is not under src/; these are the
    members the parser refers to, plus the remaining system events). *)
Inductive MessageType :=
| NON_SYSTEM | ORDER_PURCHASED | ORDER_CONFIRMED | NEW_FEEDBACK | FEEDBACK_CHANGED
| FEEDBACK_DELETED | NEW_FEEDBACK_ANSWER | FEEDBACK_ANSWER_CHANGED
| FEEDBACK_ANSWER_DELETED | ORDER_REOPENED | REFUND | PARTIAL_REFUND
| ORDER_CONFIRMED_BY_ADMIN | DISCORD | DEAR_VENDORS | REFUND_BY_ADMIN.

Global Instance MessageType_eq_dec : EqDecision MessageType.
Proof. solve_decision. Defined.

(** The author block [div.media-user-name] of a message. *)
Record AuthorDiv := {
  success_label : option pystr;  (** text of [span.chat-msg-author-label.label-success] *)
  default_label : option pystr;  (** text of [span.chat-msg-author-label.label-default] *)
  author_link : option pystr     (** text of its first [a] *)
}.

(** The image anchor [a.chat-img-link]. *)
Record ImgAnchor := {
  img_alt : option pystr;   (** [image_tag.find("img").get("alt")], [None] when either is missing *)
  img_href : option pystr   (** [image_tag.get("href")] *)
}.

(** The markup of one message record: what the parser's queries return. *)
Record Markup := {
  author_div : option AuthorDiv;
  img_link : option ImgAnchor;
  alert_text : option pystr;       (** text of [div[role=alert]] *)
  msg_text : option pystr;         (** text of [div.chat-msg-text] *)
  user_links : list (pystr * Z)    (** [a] with [/users/<id>/] hrefs: (text, id) *)
}.

(** One entry of the JSON [messages] array: [{id, author, html}]. *)
Record RawMsg := { raw_id : Z; raw_author : Z; raw_html : Markup }.

(** A chat id: an int or a string. *)
Inductive ChatId := ChatInt (n : Z) | ChatStr (s : pystr).

(** [types.Message]. *)
Record Message := {
  id : Z;
  text : option pystr;
  chat_id : ChatId;
  chat_name : option pystr;
  interlocutor_id : option Z;
  author : option pystr;
  author_id : Z;
  html : Markup;
  image_link : option pystr;
  image_name : option pystr;
  type : MessageType;
  by_bot : bool;
  by_vertex : bool;
  badge : option pystr;
  is_employee : bool;
  is_support : bool;
  is_moderation : bool;
  is_arbitration : bool;
  is_autoreply : bool;
  initiator_username : option pystr;
  initiator_id : option Z;
  i_am_buyer : option bool;
  i_am_seller : option bool
}.

(** Modelled from the spec: the constructor of [types.Message] (types.py is
    not under src/).  Missing optional data defaults to null/false (spec 3 and
    7): the flags start false, the role flags and the initiator unset. *)
Definition Message_new (id0 : Z) (text0 : option pystr) (chat_id0 : ChatId)
    (chat_name0 : option pystr) (interlocutor_id0 : option Z) (author0 : option pystr)
    (author_id0 : Z) (html0 : Markup) (image_link0 image_name0 : option pystr) : Message :=
  {| id := id0; text := text0; chat_id := chat_id0; chat_name := chat_name0;
     interlocutor_id := interlocutor_id0; author := author0; author_id := author_id0;
     html := html0; image_link := image_link0; image_name := image_name0;
     type := NON_SYSTEM; by_bot := false; by_vertex := false; badge := None;
     is_employee := false; is_support := false; is_moderation := false;
     is_arbitration := false; is_autoreply := false; initiator_username := None;
     initiator_id := None; i_am_buyer := None; i_am_seller := None |}.

End Types.
Import Types (MessageType, NON_SYSTEM, ORDER_PURCHASED, ORDER_CONFIRMED, NEW_FEEDBACK,
  FEEDBACK_CHANGED, FEEDBACK_DELETED, NEW_FEEDBACK_ANSWER, FEEDBACK_ANSWER_CHANGED,
  FEEDBACK_ANSWER_DELETED, ORDER_REOPENED, REFUND, PARTIAL_REFUND,
  ORDER_CONFIRMED_BY_ADMIN, DISCORD, DEAR_VENDORS, REFUND_BY_ADMIN,
  ChatId, ChatInt, ChatStr, RawMsg, Markup, AuthorDiv, ImgAnchor, Message).

(* ------------------------------------------------------------------ *)
(** ** [common/parser.py]: [_parse_messages] *)

Module Parser.
Import Types.

(** The attributes of the account object the parser reads.  Reading a
    property may raise, hence the [PyResult]s. *)
Record AccountView := {
  acc_id : Z;
  acc_username : option pystr;
  acc_bot_character : PyResult pystr;
  acc_old_bot_character : PyResult pystr
}.

Definition is_digit (c : Z) : bool := (48 <=? c) && (c <=? 57).

Fixpoint span_digits (s : pystr) : nat * pystr :=
  match s with
  | c :: s' => if is_digit c then let '(n, r) := span_digits s' in (S n, r) else (O, s)
  | [] => (O, [])
  end.

Fixpoint strip_prefix (p s : pystr) : option pystr :=
  match p, s with
  | [], _ => Some s
  | c :: p', d :: s' => if c =? d then strip_prefix p' s' else None
  | _, _ => None
  end.

(** [PRIVATE_CHAT_ID_RE.fullmatch(s)] for [users-\d+-\d+$] (ASCII digits). *)
Definition private_re_fullmatch (s : pystr) : bool :=
  match strip_prefix (u "users-") s with
  | None => false
  | Some r =>
      let '(n1, r1) := span_digits r in
      match r1 with
      | 45 :: r2 =>
          let '(n2, r3) := span_digits r2 in
          Nat.ltb 0 n1 && Nat.ltb 0 n2 && match r3 with [] => true | _ => false end
      | _ => false
      end
  end.

(** [AccountMixin.chat_id_private]. *)
Definition chat_id_private (c : ChatId) : bool :=
  match c with ChatInt _ => true | ChatStr s => private_re_fullmatch s end.

(** The parser's value in the [badges] dict: a label text, or [0] for
    "checked, no badge". *)
Inductive BadgeVal := BadgeText (s : pystr) | BadgeZero.

(** The state pass 1 threads through the batch: the [ids] and [badges] dicts
    and the local variable [interlocutor_username]. *)
Record Cache := {
  ids : gmap Z (option pystr);
  badges : gmap Z BadgeVal;
  interlocutor_username : option pystr
}.

(** [ids.get(k)]. *)
Definition ids_get (c : Cache) (k : Z) : option pystr :=
  match ids c !! k with Some v => v | None => None end.

(** Lines 299-302: the caches before the loop. *)
Definition init_cache (acc : AccountView) (iid : option Z) (iu : option pystr) : Cache :=
  let ids0 : gmap Z (option pystr) :=
    <[0 := Some (u "FunPay")]> (<[acc_id acc := acc_username acc]> ∅) in
  {| ids := match iid with Some i => <[i := iu]> ids0 | None => ids0 end;
     badges := ∅;
     interlocutor_username := iu |}.

(** Lines 310-321: resolve the author name and badge of a record. *)
Definition resolve_author (chat : ChatId) (iid : option Z) (c : Cache)
    (a : Z) (mk : Markup) : PyResult Cache :=
  if is_none (ids_get c a) || is_none (badges c !! a) then
    match author_div mk with
    | None => mret c
    | Some ad =>
        let badges' :=
          if is_none (badges c !! a) then
            <[a := match success_label ad with Some t => BadgeText t | None => BadgeZero end]>
              (badges c)
          else badges c in
        if is_none (ids_get c a) then
          match author_link ad with
          | None => PyRaise AttributeError
          | Some t =>
              let author0 := strip t in
              let ids' := <[a := Some author0]> (ids c) in
              if chat_id_private chat && bool_decide (Some a = iid)
                 && negb (truthy (interlocutor_username c)) then
                mret {| ids := <[a := Some author0]> ids'; badges := badges';
                        interlocutor_username := Some author0 |}
              else
                mret {| ids := ids'; badges := badges';
                        interlocutor_username := interlocutor_username c |}
          end
        else mret {| ids := ids c; badges := badges';
                     interlocutor_username := interlocutor_username c |}
    end
  else mret c.

(** The content a record yields in pass 1, lines 322-349:
    (message_text, image_link, image_name, by_bot, by_vertex). *)
Definition Content : Type := option pystr * option pystr * option pystr * bool * bool.

(** The extracted text of a non-image record, lines 338-341. *)
Definition extract_text (a : Z) (mk : Markup) : PyResult pystr :=
  if a =? 0 then
    match alert_text mk with Some t => mret (strip t) | None => PyRaise AttributeError end
  else
    match msg_text mk with Some t => mret t | None => PyRaise AttributeError end.

(** Lines 343-346.  Python reads
    [startswith(bot_character) or startswith(old_bot_character) and author_id == account.id]
    as [A or (B and C)]. *)
Definition strip_bot_marker (acc : AccountView) (a : Z) (t : pystr) : PyResult (pystr * bool) :=
  bc ← acc_bot_character acc;
  if startswith t bc then mret (drop1 t, true)
  else
    obc ← acc_old_bot_character acc;
    if startswith t obc && (a =? acc_id acc) then mret (drop1 t, true)
    else mret (t, false).

Definition message_content (acc : AccountView) (chat : ChatId) (a : Z) (mk : Markup)
    : PyResult Content :=
  match (if chat_id_private chat then img_link mk else None) with
  | Some ia =>
      let image_name0 := img_alt ia in
      let by_bot0 :=
        match image_name0 with
        | Some n => contains (lower n) (u "funpay_cardinal")
        | None => false
        end in
      let by_vertex0 :=
        if by_bot0 then false
        else bool_decide (image_name0 = Some (u "funpay_vertex_image.png")) in
      mret (None, img_href ia, image_name0, by_bot0, by_vertex0)
  | None =>
      t ← extract_text a mk;
      '(t', bb) ← strip_bot_marker acc a t;
      mret (Some t', None, None, bb, false)
  end.

Section ParseMessages.

(** [types.Message.get_message_type] (types.py is not under src/): any
    classification of a message. *)
Variable get_message_type : Message -> MessageType.

(** Lines 351-355: the message built in pass 1. *)
Definition pre_message (chat : ChatId) (iid : option Z) (iu : option pystr)
    (r : RawMsg) (cnt : Content) : Message :=
  let '(t, il, iname, bb, bv) := cnt in
  let m := Message_new (raw_id r) t chat iu iid None (raw_author r) (raw_html r) il iname in
  let m := {| id := id m; text := text m; chat_id := chat_id m; chat_name := chat_name m;
              interlocutor_id := interlocutor_id m; author := author m;
              author_id := author_id m; html := html m; image_link := image_link m;
              image_name := image_name m; type := type m; by_bot := bb; by_vertex := bv;
              badge := badge m; is_employee := is_employee m; is_support := is_support m;
              is_moderation := is_moderation m; is_arbitration := is_arbitration m;
              is_autoreply := is_autoreply m; initiator_username := initiator_username m;
              initiator_id := initiator_id m; i_am_buyer := i_am_buyer m;
              i_am_seller := i_am_seller m |} in
  let ty := if negb (raw_author r =? 0) then NON_SYSTEM else get_message_type m in
  {| id := id m; text := text m; chat_id := chat_id m; chat_name := chat_name m;
     interlocutor_id := interlocutor_id m; author := author m;
     author_id := author_id m; html := html m; image_link := image_link m;
     image_name := image_name m; type := ty; by_bot := by_bot m; by_vertex := by_vertex m;
     badge := badge m; is_employee := is_employee m; is_support := is_support m;
     is_moderation := is_moderation m; is_arbitration := is_arbitration m;
     is_autoreply := is_autoreply m; initiator_username := initiator_username m;
     initiator_id := initiator_id m; i_am_buyer := i_am_buyer m;
     i_am_seller := i_am_seller m |}.

(** Pass 1, lines 304-357. *)
Fixpoint pass1 (acc : AccountView) (chat : ChatId) (iid : option Z) (from_id : Z)
    (c : Cache) (rs : list RawMsg) : PyResult (Cache * list Message) :=
  match rs with
  | [] => mret (c, [])
  | r :: rs' =>
      if raw_id r <? from_id then pass1 acc chat iid from_id c rs'
      else
        c' ← resolve_author chat iid c (raw_author r) (raw_html r);
        cnt ← message_content acc chat (raw_author r) (raw_html r);
        let m := pre_message chat iid (interlocutor_username c') r cnt in
        '(c'', ms) ← pass1 acc chat iid from_id c' rs';
        mret (c'', m :: ms)
  end.

(** The three role-badge phrase sets and the auto-reply label set (parser.py
    lines 366-376), decoded to code points once. *)
Definition support_badges : list pystr := Eval vm_compute in [u "поддержка"; u "підтримка"; u "support"].
Definition moderation_badges : list pystr := Eval vm_compute in [u "модерация"; u "модерація"; u "moderation"].
Definition arbitration_badges : list pystr := Eval vm_compute in [u "арбитраж"; u "арбітраж"; u "arbitration"].
Definition autoreply_labels : list pystr := Eval vm_compute in [u "автовідповідь"; u "автоответ"; u "auto-reply"].

(** The message types of lines 384-387 and 394-395. *)
Definition buyer_initiated_types : list MessageType :=
  [ORDER_PURCHASED; ORDER_CONFIRMED; NEW_FEEDBACK; FEEDBACK_CHANGED; FEEDBACK_DELETED].
Definition reply_types : list MessageType :=
  [NEW_FEEDBACK_ANSWER; FEEDBACK_ANSWER_CHANGED; FEEDBACK_ANSWER_DELETED; REFUND].

Definition type_in (t : MessageType) (ts : list MessageType) : bool :=
  existsb (fun t' => bool_decide (t = t')) ts.

(** Lines 379-417: initiator and buyer/seller role of a system message,
    as (initiator_username, initiator_id, i_am_buyer, i_am_seller). *)
Definition attribute_roles (me : Z) (m : Message)
    : option pystr * option Z * option bool * option bool :=
  let unchanged := (initiator_username m, initiator_id m, i_am_buyer m, i_am_seller m) in
  if bool_decide (type m <> NON_SYSTEM) then
    match user_links (html m) with
    | [] => unchanged
    | (uname, uid) :: rest =>
        let iname := Some uname in
        let iid := Some uid in
        if type_in (type m) buyer_initiated_types then
          if uid =? me then (iname, iid, Some true, Some false)
          else (iname, iid, Some false, Some true)
        else if type_in (type m) reply_types then
          if uid =? me then (iname, iid, Some false, Some true)
          else (iname, iid, Some true, Some false)
        else if Nat.ltb 1 (length (user_links (html m))) then
          let last_user_id := snd (List.last rest (uname, uid)) in
          if bool_decide (type m = ORDER_CONFIRMED_BY_ADMIN) then
            if last_user_id =? me then (iname, iid, Some false, Some true)
            else (iname, iid, Some true, Some false)
          else if bool_decide (type m = REFUND_BY_ADMIN) then
            if last_user_id =? me then (iname, iid, Some true, Some false)
            else (iname, iid, Some false, Some true)
          else (iname, iid, i_am_buyer m, i_am_seller m)
        else (iname, iid, i_am_buyer m, i_am_seller m)
    end
  else unchanged.

(** Pass 2 on one message, lines 360-417. *)
Definition finalize (acc : AccountView) (c : Cache) (m : Message) : Message :=
  let author0 := ids_get c (author_id m) in
  let chat_name0 := interlocutor_username c in
  let badge0 :=
    match badges c !! author_id m with Some (BadgeText s) => Some s | _ => None end in
  let '(emp, sup, modr, arb) :=
    if truthy badge0 then
      let b := default [] badge0 in
      if str_in b support_badges then (true, true, is_moderation m, is_arbitration m)
      else if str_in b moderation_badges then (true, is_support m, true, is_arbitration m)
      else if str_in b arbitration_badges then (true, is_support m, is_moderation m, true)
      else (true, is_support m, is_moderation m, is_arbitration m)
    else (is_employee m, is_support m, is_moderation m, is_arbitration m) in
  let dl := match author_div (html m) with Some ad => default_label ad | None => None end in
  let autoreply :=
    match dl with
    | Some t => if str_in t autoreply_labels then true else is_autoreply m
    | None => is_autoreply m
    end in
  let badge1 := match badge0, dl with None, Some t => Some t | _, _ => badge0 end in
  let m' := {| id := id m; text := text m; chat_id := chat_id m; chat_name := chat_name0;
               interlocutor_id := interlocutor_id m; author := author0;
               author_id := author_id m; html := html m; image_link := image_link m;
               image_name := image_name m; type := type m; by_bot := by_bot m;
               by_vertex := by_vertex m; badge := badge1; is_employee := emp;
               is_support := sup; is_moderation := modr; is_arbitration := arb;
               is_autoreply := autoreply; initiator_username := initiator_username m;
               initiator_id := initiator_id m; i_am_buyer := i_am_buyer m;
               i_am_seller := i_am_seller m |} in
  let '(iun, iid, buyer, seller) := attribute_roles (acc_id acc) m' in
  {| id := id m'; text := text m'; chat_id := chat_id m'; chat_name := chat_name m';
     interlocutor_id := interlocutor_id m'; author := author m';
     author_id := author_id m'; html := html m'; image_link := image_link m';
     image_name := image_name m'; type := type m'; by_bot := by_bot m';
     by_vertex := by_vertex m'; badge := badge m'; is_employee := is_employee m';
     is_support := is_support m'; is_moderation := is_moderation m';
     is_arbitration := is_arbitration m'; is_autoreply := is_autoreply m';
     initiator_username := iun; initiator_id := iid; i_am_buyer := buyer;
     i_am_seller := seller |}.

(** [_parse_messages(json_messages, account, chat_id, interlocutor_id,
    interlocutor_username, from_id)]. *)
Definition _parse_messages (acc : AccountView) (chat : ChatId) (iid : option Z)
    (iu : option pystr) (from_id : Z) (rs : list RawMsg) : PyResult (list Message) :=
  '(c, ms) ← pass1 acc chat iid from_id (init_cache acc iid iu) rs;
  mret (map (finalize acc c) ms).

End ParseMessages.

(** The records that survive the [from_id] filter of line 305. *)
Definition kept (from_id : Z) (rs : list RawMsg) : list RawMsg :=
  List.filter (fun r => negb (raw_id r <? from_id)) rs.

End Parser.


(* ------------------------------------------------------------------ *)
(** ** The account object: attributes, properties, name mangling *)

Module AccountObj.

(** Attribute values, as far as the claims need to tell them apart. *)
Inductive PyVal :=
| VNone
| VBool (b : bool)
| VInt (z : Z)
| VStr (s : pystr)
| VObj (what : string).

Definition pyval_eqb (v w : PyVal) : bool :=
  match v, w with
  | VNone, VNone => true
  | VBool a, VBool b => Bool.eqb a b
  | VInt a, VInt b => a =? b
  | VStr a, VStr b => str_eqb a b
  | VObj a, VObj b => String.eqb a b
  | _, _ => false
  end.

Definition truthy_val (v : PyVal) : bool :=
  match v with
  | VNone => false
  | VBool b => b
  | VInt z => negb (z =? 0)
  | VStr s => match s with [] => false | _ => true end
  | VObj _ => true
  end.

Fixpoint ends_with_dunder (s : string) : bool :=
  match s with
  | String "_" (String "_" EmptyString) => true
  | String _ s' => ends_with_dunder s'
  | EmptyString => false
  end.

(** Python's private name mangling: [__name] written inside [class cls]
    (with no leading underscore in [cls]) means [_cls__name]. *)
Definition mangle (cls name : string) : string :=
  if String.prefix "__" name && negb (ends_with_dunder name)
  then ("_" ++ cls ++ name)%string else name.

(** A property of the account classes: the attribute its getter returns
    ([return self.<attr>]), and whether it is the [locale] property, the only
    one with a setter. *)
Record Property := { prop_reads : string; prop_is_locale : bool }.

(** The properties of [AccountMixin] (account.py) and [CategoriesMixin]
    (categories.py), the bases of [AsyncAccount]. *)
Definition account_properties : list (string * Property) :=
  [("is_initiated", {| prop_reads := mangle "AccountMixin" "__initiated"; prop_is_locale := false |});
   ("bot_character", {| prop_reads := mangle "AccountMixin" "__bot_character"; prop_is_locale := false |});
   ("old_bot_character", {| prop_reads := mangle "AccountMixin" "__old_bot_character"; prop_is_locale := false |});
   ("locale", {| prop_reads := mangle "AccountMixin" "__locale"; prop_is_locale := true |});
   ("categories", {| prop_reads := "_categories"; prop_is_locale := false |});
   ("subcategories", {| prop_reads := "_subcategories"; prop_is_locale := false |})]%string.

Definition find_property (n : string) : option Property :=
  match List.find (fun p => String.eqb (fst p) n) account_properties with
  | Some (_, p) => Some p
  | None => None
  end.

(** Lookup of a plain (non-property) attribute: the instance dict. *)
Definition getattr_plain (d : gmap string PyVal) (n : string) : PyResult PyVal :=
  match d !! n with Some v => PyOk v | None => PyRaise AttributeError end.

(** [getattr(obj, n)]: a property (a data descriptor) wins over the instance
    dict and runs its getter. *)
Definition getattr (d : gmap string PyVal) (n : string) : PyResult PyVal :=
  match find_property n with
  | Some p => getattr_plain d (prop_reads p)
  | None => getattr_plain d n
  end.

Definition locales : list PyVal := [VStr (u "ru"); VStr (u "en"); VStr (u "uk")].

(** The [locale] setter, account.py lines 71-74. *)
Definition locale_setter (d : gmap string PyVal) (v : PyVal) : PyResult (gmap string PyVal) :=
  cur ← getattr_plain d (mangle "AccountMixin" "__locale");
  if negb (pyval_eqb cur v) && existsb (pyval_eqb v) locales
  then mret (<[mangle "AccountMixin" "__set_locale" := v]> d)
  else mret d.

(** [setattr(obj, n, v)]: a property without setter refuses the assignment. *)
Definition setattr (d : gmap string PyVal) (n : string) (v : PyVal)
    : PyResult (gmap string PyVal) :=
  match find_property n with
  | Some p => if prop_is_locale p then locale_setter d v else PyRaise AttributeError
  | None => mret (<[n := v]> d)
  end.

Fixpoint setattrs (d : gmap string PyVal) (l : list (string * PyVal))
    : PyResult (gmap string PyVal) :=
  match l with
  | [] => mret d
  | (n, v) :: l' => d' ← setattr d n v; setattrs d' l'
  end.

Definition opt_str (s : option pystr) : PyVal :=
  match s with Some t => VStr t | None => VNone end.

(** The assignments of [AsyncAccount.__init__], async_account.py lines 58-133,
    in order. *)
Definition init_assignments (golden_key : pystr) (user_agent locale : option pystr)
    : list (string * PyVal) :=
  [("golden_key", VStr golden_key); ("user_agent", opt_str user_agent);
   ("client", VObj "AsyncClient"); ("html", VNone); ("app_data", VNone); ("id", VNone);
   ("username", VNone); ("active_sales", VNone); ("active_purchases", VNone);
   ("last_429_err_time", VInt 0); ("last_flood_err_time", VInt 0);
   ("last_multiuser_flood_err_time", VInt 0); ("_locale", VNone);
   ("_default_locale", opt_str locale); ("_profile_parse_locale", opt_str locale);
   ("_chat_parse_locale", VNone); ("_order_parse_locale", VNone);
   ("_lots_parse_locale", VNone); ("_subcategories_parse_locale", VNone);
   ("_set_locale", VNone); ("currency", VObj "Currency.UNKNOWN");
   ("total_balance", VNone); ("csrf_token", VNone); ("phpsessid", VNone);
   ("last_update", VNone); ("interlocutor_ids", VObj "dict"); ("_initiated", VBool false);
   ("_saved_chats", VObj "dict"); ("runner", VNone); ("_logout_link", VNone);
   ("_categories", VObj "list"); ("_sorted_categories", VObj "dict");
   ("_subcategories", VObj "list"); ("_sorted_subcategories", VObj "dict");
   ("_bot_character", VStr (u "⁡")); ("_old_bot_character", VStr (u "⁤"))]%string.

(** [AsyncAccount(golden_key, user_agent, requests_timeout, proxy, locale)]:
    the instance dict ([requests_timeout] and [proxy] only reach the client). *)
Definition async_account_init (golden_key : pystr) (user_agent locale : option pystr)
    : PyResult (gmap string PyVal) :=
  setattrs ∅ (init_assignments golden_key user_agent locale).

(** The guard [if not self.is_initiated: raise AccountNotInitiatedError()]
    that starts the public methods, followed by the method's body. *)
Definition guarded {A} (d : gmap string PyVal) (body : PyResult A) : PyResult A :=
  v ← getattr d "is_initiated";
  if truthy_val v then body else PyRaise AccountNotInitiatedError.

Definition as_str (v : PyVal) : PyResult pystr :=
  match v with VStr s => mret s | _ => PyRaise TypeError end.

(** The account as [_parse_messages] sees it: [account.id],
    [account.username] and the two marker properties. *)
Definition parser_view (d : gmap string PyVal) (id0 : Z) (username0 : option pystr)
    : Parser.AccountView :=
  {| Parser.acc_id := id0; Parser.acc_username := username0;
     Parser.acc_bot_character := v ← getattr d "bot_character"; as_str v;
     Parser.acc_old_bot_character := v ← getattr d "old_bot_character"; as_str v |}.

End AccountObj.

(* ------------------------------------------------------------------ *)
(** ** [ChatMixin.send_message]: the answer of the runner *)

Module SendMessage.

(** The two flood timestamps of the account ([time.time()] values). *)
Record FloodState := {
  last_flood_err_time : Z;
  last_multiuser_flood_err_time : Z
}.

Definition flood_phrases : list pystr := Eval vm_compute in
  [u "Нельзя отправлять сообщения слишком часто.";
   u "You cannot send messages too frequently.";
   u "Не можна надсилати повідомлення занадто часто."].

Definition multiuser_flood_phrases : list pystr := Eval vm_compute in
  [u "Нельзя слишком часто отправлять сообщения разным пользователям.";
   u "Не можна надто часто надсилати повідомлення різним користувачам.";
   u "You cannot message multiple users too frequently."].

(** chat.py lines 222-238, at time [now], for a response with status
    [status_code] whose JSON [response] entry is falsy ([None]) or a dict
    whose ["error"] entry is [err].  [PyOk tt] stands for going on to build
    and return the sent message (lines 239-279). *)
Definition send_message_response (st : FloodState) (now status_code : Z)
    (response : option (option pystr)) : FloodState * PyResult unit :=
  if negb (status_code =? 200) then (st, PyRaise RequestFailedError)
  else
    match response with
    | None => (st, PyRaise (MessageNotDeliveredError None))
    | Some None => (st, mret tt)
    | Some (Some error_text) =>
        let st' :=
          if str_in error_text flood_phrases then
            {| last_flood_err_time := now;
               last_multiuser_flood_err_time := last_multiuser_flood_err_time st |}
          else if str_in error_text multiuser_flood_phrases then
            {| last_flood_err_time := last_flood_err_time st;
               last_multiuser_flood_err_time := now |}
          else st in
        (st', PyRaise (MessageNotDeliveredError (Some error_text)))
    end.

End SendMessage.

(* ------------------------------------------------------------------ *)
(** ** Private chat ids in [parse_order] and [parse_sales] *)

Module ChatIds.

(** [sorted([a, b])] for two ints. *)
Definition sorted2 (a b : Z) : Z * Z := if b <? a then (b, a) else (a, b).

(** [id1, id2 = sorted([a, b]); chat_id = f"users-{id1}-{id2}"]. *)
Definition private_chat_id (a b : Z) : pystr :=
  let '(id1, id2) := sorted2 a b in
  u "users-" ++ str_of_int id1 ++ u "-" ++ str_of_int id2.

(** [parse_order], lines 582-589: on the sales tab the interlocutor is the
    buyer, otherwise the seller. *)
Definition order_chat_id (sales_tab : bool) (my_id interlocutor_id : Z) : pystr :=
  let '(buyer_id, seller_id) :=
    if sales_tab then (interlocutor_id, my_id) else (my_id, interlocutor_id) in
  private_chat_id buyer_id seller_id.

(** [parse_sales], lines 704-705. *)
Definition sales_chat_id (my_id buyer_id : Z) : pystr := private_chat_id buyer_id my_id.

End ChatIds.

(* ------------------------------------------------------------------ *)
(** ** Home page: [parse_account_data] and [_setup_categories] *)

Module HomePage.
Import AccountObj.

(** A computation over a state [S] that may raise; the state changes made
    before an exception stay. *)
Definition StErr (S A : Type) : Type := S -> S * PyResult A.
Definition st_ret {S A} (a : A) : StErr S A := fun s => (s, PyOk a).
Definition st_raise {S A} (e : PyExc) : StErr S A := fun s => (s, PyRaise e).
Definition st_bind {S A B} (m : StErr S A) (f : A -> StErr S B) : StErr S B :=
  fun s => match m s with
           | (s', PyOk a) => f a s'
           | (s', PyRaise e) => (s', PyRaise e)
           end.
Definition st_lift {S A} (r : PyResult A) : StErr S A := fun s => (s, r).
Local Notation "'let*' x := m 'in' k" := (st_bind m (fun x => k))
  (at level 200, x pattern, m at level 100, k at level 200).

Inductive SubCategoryType := COMMON | CURRENCY.

Record SubCategory := {
  sub_id : Z; sub_name : pystr; sub_type : SubCategoryType;
  sub_category : Z;  (** the owning category, by id *)
  sub_position : Z
}.

Record Category := {
  cat_id : Z; cat_name : pystr; cat_position : Z; cat_subcategories : list SubCategory
}.

(** [Category.add_subcategory] (types.py is not under src/): appends. *)
Definition add_subcategory (c : Category) (s : SubCategory) : Category :=
  {| cat_id := cat_id c; cat_name := cat_name c; cat_position := cat_position c;
     cat_subcategories := cat_subcategories c ++ [s] |}.

(** The category/subcategory index of the account:
    [_categories], [_sorted_categories], [_subcategories], [_sorted_subcategories]. *)
Record Index := {
  categories : list Category;
  sorted_categories : gmap Z Category;
  subcategories : list SubCategory;
  sorted_common : gmap Z SubCategory;
  sorted_currency : gmap Z SubCategory
}.

Definition empty_index : Index := {| categories := []; sorted_categories := ∅;
  subcategories := []; sorted_common := ∅; sorted_currency := ∅ |}.

(** One [ul.list-inline] of a game item: its [data-id] and, per [li], its
    first [a] as (text, href). *)
Record SubList := {
  ul_data_id : option pystr;
  ul_items : list (option (pystr * option pystr))
}.

(** A [div.promo-game-item]. *)
Record GameItem := {
  gi_title : option (option pystr);   (** [div.game-title] and its [data-id] *)
  gi_a_text : option pystr;           (** text of its first [a] *)
  gi_group : option (list (option pystr * pystr));  (** [div[role=group]]: buttons (data-id, text) *)
  gi_lists : list SubList
}.

(** The digits part of [int(s)]: ASCII digits, at least one. *)
Definition digits_val (ds : pystr) : PyResult Z :=
  match ds with
  | [] => PyRaise ValueError
  | _ => if forallb Parser.is_digit ds
         then mret (fold_left (fun acc d => acc * 10 + (d - 48)) ds 0)
         else PyRaise ValueError
  end.

(** [int(s)] on a str: surrounding whitespace, an optional sign, ASCII digits. *)
Definition py_int (s : pystr) : PyResult Z :=
  match strip s with
  | 45 :: ds => n ← digits_val ds; mret (- n)
  | 43 :: ds => digits_val ds
  | ds => digits_val ds
  end.

Fixpoint split_on (sep : Z) (s : pystr) : list pystr :=
  match s with
  | [] => [[]]
  | c :: s' =>
      let rest := split_on sep s' in
      if c =? sep then [] :: rest
      else match rest with p :: ps => (c :: p) :: ps | [] => [[c]] end
  end.

(** [int(link.split("/")[-2])]. *)
Definition sid_of_link (link : pystr) : PyResult Z :=
  match rev (split_on 47 link) with
  | _ :: p :: _ => py_int p
  | _ => PyRaise IndexError
  end.

(** Python dict assignment and lookup on an insertion-ordered dict. *)
Fixpoint dict_set {V} (k : Z) (v : V) (d : list (Z * V)) : list (Z * V) :=
  match d with
  | [] => [(k, v)]
  | (k', v') :: d' => if k =? k' then (k, v) :: d' else (k', v') :: dict_set k v d'
  end.
Definition dict_get {V} (k : Z) (d : list (Z * V)) : option V :=
  match List.find (fun p => fst p =? k) d with Some (_, v) => Some v | None => None end.

Definition add_to_index (stype : SubCategoryType) (s : SubCategory) (ix : Index) : Index :=
  {| categories := categories ix; sorted_categories := sorted_categories ix;
     subcategories := subcategories ix ++ [s];
     sorted_common := match stype with COMMON => <[sub_id s := s]> (sorted_common ix)
                                      | CURRENCY => sorted_common ix end;
     sorted_currency := match stype with CURRENCY => <[sub_id s := s]> (sorted_currency ix)
                                        | COMMON => sorted_currency ix end |}.

(** categories.py lines 116-125: the [li] items of one list. *)
Fixpoint add_items (jgid : Z) (items : list (option (pystr * option pystr)))
    (rg : list (Z * Category)) (pos : Z) : StErr Index (list (Z * Category) * Z) :=
  match items with
  | [] => st_ret (rg, pos)
  | li :: items' =>
      match li with
      | None => st_raise AttributeError
      | Some (_, None) => st_raise KeyError
      | Some (name, Some link) =>
          let stype := if contains link (u "chips") then CURRENCY else COMMON in
          let* sid := st_lift (sid_of_link link) in
          match dict_get jgid rg with
          | None => st_raise KeyError
          | Some cat =>
              let sobj := {| sub_id := sid; sub_name := name; sub_type := stype;
                             sub_category := jgid; sub_position := pos |} in
              let rg' := dict_set jgid (add_subcategory cat sobj) rg in
              fun ix => add_items jgid items' rg' (pos + 1) (add_to_index stype sobj ix)
          end
      end
  end.

(** Lines 112-125: the [ul.list-inline] lists of one game item. *)
Fixpoint add_lists (ls : list SubList) (rg : list (Z * Category)) (pos : Z)
    : StErr Index (list (Z * Category) * Z) :=
  match ls with
  | [] => st_ret (rg, pos)
  | j :: ls' =>
      match ul_data_id j with
      | None => st_raise KeyError
      | Some s =>
          let* jgid := st_lift (py_int s) in
          let* (rg', pos') := add_items jgid (ul_items j) rg pos in
          add_lists ls' rg' pos'
      end
  end.

(** Lines 105-110: the regional variants. *)
Fixpoint add_regional (gname : pystr) (btns : list (option pystr * pystr))
    (rg : list (Z * Category)) (gpos : Z) : PyResult (list (Z * Category) * Z) :=
  match btns with
  | [] => mret (rg, gpos)
  | (None, _) :: _ => PyRaise KeyError
  | (Some did, btext) :: btns' =>
      rid ← py_int did;
      let c := {| cat_id := rid; cat_name := gname ++ u " (" ++ btext ++ u ")";
                  cat_position := gpos; cat_subcategories := [] |} in
      add_regional gname btns' (dict_set rid c rg) (gpos + 1)
  end.

(** Lines 127-129. *)
Definition publish (rg : list (Z * Category)) (ix : Index) : Index :=
  fold_left (fun ix '(gid, c) =>
    {| categories := categories ix ++ [c]; sorted_categories := <[gid := c]> (sorted_categories ix);
       subcategories := subcategories ix; sorted_common := sorted_common ix;
       sorted_currency := sorted_currency ix |}) rg ix.

(** Lines 98-129: the game items. *)
Fixpoint setup_games (games : list GameItem) (gpos spos : Z) : StErr Index unit :=
  match games with
  | [] => st_ret tt
  | i :: games' =>
      match gi_title i with
      | None => st_raise AttributeError
      | Some None => st_raise TypeError
      | Some (Some did) =>
          let* gid := st_lift (py_int did) in
          match gi_a_text i with
          | None => st_raise AttributeError
          | Some gname =>
              let rg := [(gid, {| cat_id := gid; cat_name := gname; cat_position := gpos;
                                  cat_subcategories := [] |})] in
              let* (rg1, gpos1) :=
                st_lift (match gi_group i with
                         | Some btns => add_regional gname btns rg (gpos + 1)
                         | None => mret (rg, gpos + 1)
                         end) in
              let* (rg2, spos2) := add_lists (gi_lists i) rg1 spos in
              fun ix => setup_games games' gpos1 spos2 (publish rg2 ix)
          end
      end
  end.

(** [CategoriesMixin._setup_categories] (and the identical
    [parser._setup_categories]): [tables] are the [div.promo-game-list]
    elements of the page, each given by its [div.promo-game-item]s. *)
Definition _setup_categories (tables : list (list GameItem)) : StErr Index unit :=
  match tables with
  | [] => st_ret tt
  | t0 :: rest =>
      let table := match rest with t1 :: _ => t1 | [] => t0 end in
      match table with
      | [] => st_ret tt
      | _ => setup_games table 0 0
      end
  end.

(** The [data-app-data] JSON of the page body. *)
Record AppData := {
  app_locale : option pystr;   (** [app_data.get("locale")] *)
  app_user_id : option Z;      (** [app_data["userId"]], [None] when the key is missing *)
  app_csrf_token : option pystr  (** [app_data["csrf-token"]] *)
}.

(** What [parse_account_data] queries on the home page. *)
Record Page := {
  user_link_name : option pystr;     (** text of [div.user-link-name] *)
  app_data : PyResult AppData;       (** [json.loads(body["data-app-data"])] *)
  logout_link : option (option pystr);  (** [a.menu-item-logout] and its href *)
  badge_trade : option pystr;        (** text of [span.badge.badge-trade] *)
  badge_balance : option pystr;      (** text of [span.badge.badge-balance] *)
  badge_orders : option pystr;       (** text of [span.badge.badge-orders] *)
  game_lists : list (list GameItem)  (** the [div.promo-game-list]s *)
}.

(** The account: its instance attributes and its category index. *)
Record AccountState := { attrs : gmap string PyVal; index : Index }.

Definition acc_setattr (n : string) (v : PyVal) : StErr AccountState unit :=
  fun st => match setattr (attrs st) n v with
            | PyOk d => ({| attrs := d; index := index st |}, PyOk tt)
            | PyRaise e => (st, PyRaise e)
            end.

Definition acc_getattr (n : string) : StErr AccountState PyVal :=
  fun st => (st, getattr (attrs st) n).

Definition on_index {A} (m : StErr Index A) : StErr AccountState A :=
  fun st => let '(ix, r) := m (index st) in ({| attrs := attrs st; index := ix |}, r).

(** [s.rsplit(" ", maxsplit=1)] unpacked into two names. *)
Definition rsplit_space_2 (s : pystr) : PyResult (pystr * pystr) :=
  match split_on 32 (rev s) with
  | last_rev :: (_ :: _) as before_rev =>
      mret (rev (concat (List.map (fun p => p ++ [32]) (removelast before_rev))
                 ++ List.last before_rev []), rev last_rev)
  | _ => PyRaise ValueError
  end.

Section ParseAccountData.

(** [utils.parse_currency] (utils is not under src/): the name of the
    [Currency] member a currency sign maps to. *)
Variable parse_currency : pystr -> string.

(** [parse_account_data(html, account)], parser.py lines 22-49. *)
Definition parse_account_data (page : Page) : StErr AccountState unit :=
  match user_link_name page with
  | None => st_raise UnauthorizedError
  | Some uname =>
      let* _ := acc_setattr "username" (VStr uname) in
      let* ad := st_lift (app_data page) in
      let* _ := acc_setattr "locale" (opt_str (app_locale ad)) in
      let* _ := match app_user_id ad with
                | Some i => acc_setattr "id" (VInt i)
                | None => st_raise KeyError
                end in
      let* _ := match app_csrf_token ad with
                | Some t => acc_setattr "csrf_token" (VStr t)
                | None => st_raise KeyError
                end in
      let* _ := match logout_link page with
                | Some href => acc_setattr "_logout_link" (opt_str href)
                | None => st_raise AttributeError
                end in
      let* _ := match badge_trade page with
                | Some t => let* n := st_lift (py_int t) in acc_setattr "active_sales" (VInt n)
                | None => acc_setattr "active_sales" (VInt 0)
                end in
      let* _ := match badge_balance page with
                | Some t =>
                    let* (b, cur) := st_lift (rsplit_space_2 t) in
                    let* n := st_lift (py_int (List.filter (fun c => negb (c =? 32)) b)) in
                    let* _ := acc_setattr "total_balance" (VInt n) in
                    acc_setattr "currency" (VObj (parse_currency cur))
                | None => acc_setattr "total_balance" (VInt 0)
                end in
      let* _ := match badge_orders page with
                | Some t => let* n := st_lift (py_int t) in acc_setattr "active_purchases" (VInt n)
                | None => acc_setattr "active_purchases" (VInt 0)
                end in
      let* v := acc_getattr "is_initiated" in
      if truthy_val v then st_ret tt else on_index (_setup_categories (game_lists page))
  end.

End ParseAccountData.

End HomePage.

(* ------------------------------------------------------------------ *)
(** ** Sample inputs *)

Module Samples.
Import Types Parser.

(** The local account: id 100, username [me], both marker properties
    readable. *)
Definition acc0 : AccountView :=
  {| acc_id := 100; acc_username := Some (u "me");
     acc_bot_character := PyOk (u "⁡"); acc_old_bot_character := PyOk (u "⁤") |}.

(** The private chat of users 42 and 100. *)
Definition chat0 : ChatId := ChatStr (u "users-42-100").

(** A classifier for the samples: the confirmation notice is an
    [ORDER_CONFIRMED] event. *)
Definition gmt0 (m : Message) : MessageType :=
  match text m with
  | Some t => if contains t (u "has confirmed") then ORDER_CONFIRMED else NON_SYSTEM
  | None => NON_SYSTEM
  end.

Definition markup0 : Markup :=
  {| author_div := None; img_link := None; alert_text := None; msg_text := None;
     user_links := [] |}.

Definition text_markup (t : pystr) : Markup :=
  {| author_div := None; img_link := None; alert_text := None; msg_text := Some t;
     user_links := [] |}.

(** A batch: an old message below the threshold, a confirmation notice from
    FunPay naming the buyer, an auto-reply of user 42, a message of the local
    account with the bot marker, a bot image, and a message of a support
    agent. *)
Definition rs0 : list RawMsg :=
  [{| raw_id := 3; raw_author := 42; raw_html := text_markup (u "old") |};
   {| raw_id := 4; raw_author := 0;
      raw_html := {| author_div := None; img_link := None;
                     alert_text := Some (u " The buyer Ivan has confirmed order #A1. ");
                     msg_text := None; user_links := [(u "Ivan", 42)] |} |};
   {| raw_id := 5; raw_author := 42;
      raw_html := {| author_div := Some {| success_label := None;
                                           default_label := Some (u "auto-reply");
                                           author_link := Some (u " Ivan ") |};
                     img_link := None; alert_text := None; msg_text := Some (u "hello");
                     user_links := [] |} |};
   {| raw_id := 6; raw_author := 100; raw_html := text_markup (u "⁡sent by the bot") |};
   {| raw_id := 7; raw_author := 42;
      raw_html := {| author_div := None;
                     img_link := Some {| img_alt := Some (u "funpay_cardinal_image.png");
                                         img_href := Some (u "https://sfunpay.com/s/chat/a.png") |};
                     alert_text := None; msg_text := None; user_links := [] |} |};
   {| raw_id := 8; raw_author := 500;
      raw_html := {| author_div := Some {| success_label := Some (u "support");
                                           default_label := None;
                                           author_link := Some (u "Agent") |};
                     img_link := None; alert_text := None; msg_text := Some (u "hi");
                     user_links := [] |} |}].

(** The results of pass 1 and of [_parse_messages] on the batch, from id 4. *)
Definition pass1_0 : Cache * list Message :=
  Eval vm_compute in
  match pass1 gmt0 acc0 chat0 (Some 42) 4 (init_cache acc0 (Some 42) None) rs0 with
  | PyOk p => p
  | PyRaise _ => (init_cache acc0 (Some 42) None, [])
  end.

Definition ms0 : list Message :=
  Eval vm_compute in
  match _parse_messages gmt0 acc0 chat0 (Some 42) None 4 rs0 with
  | PyOk ms => ms
  | PyRaise _ => []
  end.

(** The same batch when the caller already knows the interlocutor's name. *)
Definition ms_named : list Message :=
  Eval vm_compute in
  match _parse_messages gmt0 acc0 chat0 (Some 42) (Some (u "Ivan")) 4 rs0 with
  | PyOk ms => ms
  | PyRaise _ => []
  end.

(** A message of user 7 in the chat with user 7, starting with the current
    marker. *)
Definition rs_other : list RawMsg :=
  [{| raw_id := 1; raw_author := 7; raw_html := text_markup (u "⁡hi") |}].

Definition ms_other : list Message :=
  Eval vm_compute in
  match _parse_messages gmt0 acc0 (ChatInt 5) (Some 7) None 0 rs_other with
  | PyOk ms => ms
  | PyRaise _ => []
  end.

End Samples.

(* ------------------------------------------------------------------ *)
(** ** [parse_chat_history]: the interlocutor of a chat node *)

Module ChatHistory.
Import Types Parser HomePage.






End ChatHistory.

(* ------------------------------------------------------------------ *)
(** ** [CategoriesMixin] getters and [ChatMixin.add_chats] *)

Module Lookups.
Import HomePage.

(** [get_category(category_id)]: [self._sorted_categories.get(category_id)]. *)
Definition get_category (ix : Index) (category_id : Z) : option Category :=
  sorted_categories ix !! category_id.

(** [get_subcategory(subcategory_type, subcategory_id)]:
    [self._sorted_subcategories[subcategory_type].get(subcategory_id)]; the
    dict has an entry for both types from [__init__] on. *)
Definition get_subcategory (ix : Index) (t : SubCategoryType) (subcategory_id : Z)
    : option SubCategory :=
  match t with
  | COMMON => sorted_common ix !! subcategory_id
  | CURRENCY => sorted_currency ix !! subcategory_id
  end.

Global Instance SubCategoryType_eq_dec : EqDecision SubCategoryType.
Proof. solve_decision. Defined.

Section AddChats.

(** [types.ChatShortcut] (types.py is not under src/) and its [id]. *)
Variable ChatShortcut : Type.
Variable chat_shortcut_id : ChatShortcut -> Z.

(** [add_chats(chats)], chat.py lines 468-477, on [self._saved_chats]. *)
Fixpoint add_chats (saved : gmap Z ChatShortcut) (chats : list ChatShortcut)
    : gmap Z ChatShortcut :=
  match chats with
  | [] => saved
  | i :: chats' => add_chats (<[chat_shortcut_id i := i]> saved) chats'
  end.

End AddChats.

End Lookups.

(* ------------------------------------------------------------------ *)
(** ** The bot marker on the way out and in the chat list *)

Module Markers.
Import Types Parser.

(** [send_message], chat.py lines 197-201: the ["content"] of the request.
    [self.bot_character] is only read for a truthy [text]. *)
Definition request_content (acc : AccountView) (text : option pystr) (image_id : option Z)
    : PyResult pystr :=
  match image_id with
  | Some _ => mret []
  | None =>
      match text with
      | Some (c :: t) => bc ← acc_bot_character acc; mret (bc ++ c :: t)
      | _ => mret []
      end
  end.

(** [parse_chats], parser.py lines 727-733: the marker check on the text of
    the last message of a chat, as (last_msg_text, by_bot, by_vertex). *)
Definition shortcut_marker (acc : AccountView) (t : pystr) : PyResult (pystr * bool * bool) :=
  bc ← acc_bot_character acc;
  if startswith t bc then mret (drop1 t, true, false)
  else
    obc ← acc_old_bot_character acc;
    if startswith t obc then mret (drop1 t, false, true)
    else mret (t, false, false).

End Markers.

(* ------------------------------------------------------------------ *)
(** ** Exceptions of the home-page parsing steps *)

Module HomePageFacts.
Import AccountObj HomePage.

(** A state-passing step that never raises [e0], whatever the state. *)
Definition never_raises {S A} (e0 : PyExc) (m : StErr S A) : Prop :=
  forall s, snd (m s) <> PyRaise e0.

(** A state-passing step on the account that leaves its category index as
    it is. *)
Definition keeps_index {A} (m : StErr AccountState A) : Prop :=
  forall st, index (fst (m st)) = index st.

Section NeverRaises.
Context {S : Type} (e0 : PyExc).

Lemma nr_ret {A} (a : A) : never_raises (S:=S) e0 (st_ret a).
Proof. intros s. discriminate. Qed.

Lemma nr_raise {A} e : e <> e0 -> never_raises (S:=S) (A:=A) e0 (st_raise e).
Proof. intros He s H. apply He. injection H as ->. reflexivity. Qed.

Lemma nr_lift {A} (r : PyResult A) :
  (forall e, r = PyRaise e -> e <> e0) -> never_raises (S:=S) e0 (st_lift r).
Proof. intros Hr s H. exact (Hr e0 H eq_refl). Qed.

Lemma nr_bind {A B} (m : StErr S A) (f : A -> StErr S B) :
  never_raises e0 m -> (forall a, never_raises e0 (f a)) -> never_raises e0 (st_bind m f).
Proof.
  intros Hm Hf s. unfold st_bind.
  destruct (m s) as [s' [a|e]] eqn:E; [apply Hf|].
  cbn. intros H. injection H as ->. apply (Hm s). rewrite E. reflexivity.
Qed.

Lemma nr_comp {A} (m : StErr S A) (g : S -> S) :
  never_raises e0 m -> never_raises e0 (fun s => m (g s)).
Proof. intros Hm s. apply Hm. Qed.

End NeverRaises.

Lemma digits_val_raises ds e : digits_val ds = PyRaise e -> e = ValueError.
Proof.
  unfold digits_val. destruct ds; [congruence|].
  case_match; [discriminate|congruence].
Qed.

Lemma py_int_raises s e : py_int s = PyRaise e -> e = ValueError.
Proof.
  assert (B : forall ds, (n ← digits_val ds; mret (- n)) = PyRaise e -> e = ValueError).
  { intros ds. destruct (digits_val ds) eqn:E; cbn; [discriminate|].
    intros H. injection H as <-. exact (digits_val_raises _ _ E). }
  unfold py_int. revert e B.
  destruct (strip s) as [|c ds]; intros e B; [apply digits_val_raises|].
  repeat case_match; first [apply B | apply digits_val_raises].
Qed.

Lemma sid_of_link_raises link e :
  sid_of_link link = PyRaise e -> e = ValueError \/ e = IndexError.
Proof.
  unfold sid_of_link. destruct (rev (split_on 47 link)) as [|? [|p ?]].
  - intros H. right. congruence.
  - intros H. right. congruence.
  - intros H. left. exact (py_int_raises _ _ H).
Qed.

Lemma add_regional_raises gname btns rg gpos e :
  add_regional gname btns rg gpos = PyRaise e -> e = KeyError \/ e = ValueError.
Proof.
  revert rg gpos. induction btns as [|[[did|] btext] btns' IH]; intros rg gpos; cbn.
  - discriminate.
  - destruct (py_int did) eqn:E; cbn; [apply IH|].
    intros H. injection H as <-. right. exact (py_int_raises _ _ E).
  - intros H. left. congruence.
Qed.

Lemma rsplit_space_2_raises s e : rsplit_space_2 s = PyRaise e -> e = ValueError.
Proof. unfold rsplit_space_2. intros H. repeat case_match; cbn in H; try discriminate; injection H as <-; reflexivity. Qed.

Lemma setattr_raises d n v e : setattr d n v = PyRaise e -> e = AttributeError.
Proof.
  unfold setattr. destruct (find_property n) as [p|]; [|discriminate].
  destruct (prop_is_locale p); [|congruence].
  unfold locale_setter, getattr_plain.
  destruct (d !! _); cbn; [case_match; discriminate|congruence].
Qed.

Ltac nr_t :=
  repeat match goal with
  | |- never_raises _ (st_bind _ _) => apply nr_bind; [|intros ?]
  | |- never_raises _ (st_ret _) => apply nr_ret
  | |- never_raises _ (st_raise _) => apply nr_raise; discriminate
  | |- never_raises _ (fun s => _ _ (_ s)) => apply nr_comp
  | |- never_raises _ (match ?x with _ => _ end) => destruct x
  end.

Lemma add_items_nr jgid items rg pos :
  never_raises UnauthorizedError (add_items jgid items rg pos).
Proof.
  revert rg pos. induction items as [|li items' IH]; intros rg pos; cbn; [apply nr_ret|].
  destruct li as [[name [link|]]|]; nr_t.
  - apply nr_lift. intros e He. destruct (sid_of_link_raises _ _ He) as [->| ->]; discriminate.
  - apply IH.
Qed.

Lemma add_lists_nr ls rg pos : never_raises UnauthorizedError (add_lists ls rg pos).
Proof.
  revert rg pos. induction ls as [|j ls' IH]; intros rg pos; cbn; [apply nr_ret|].
  nr_t.
  - apply nr_lift. intros e He. rewrite (py_int_raises _ _ He). discriminate.
  - apply add_items_nr.
  - apply IH.
Qed.

Lemma setup_games_nr games gpos spos : never_raises UnauthorizedError (setup_games games gpos spos).
Proof.
  revert gpos spos. induction games as [|i games' IH]; intros gpos spos; cbn; [apply nr_ret|].
  nr_t.
  - apply nr_lift. intros e He. rewrite (py_int_raises _ _ He). discriminate.
  - apply nr_lift. intros e He. destruct (gi_group i).
    + destruct (add_regional_raises _ _ _ _ _ He) as [->| ->]; discriminate.
    + discriminate.
  - apply add_lists_nr.
  - apply nr_comp, IH.
Qed.

Lemma setup_categories_nr tables : never_raises UnauthorizedError (_setup_categories tables).
Proof. unfold _setup_categories. nr_t; apply setup_games_nr. Qed.

Lemma acc_setattr_nr n v : never_raises UnauthorizedError (acc_setattr n v).
Proof.
  intros st. unfold acc_setattr. destruct (setattr (attrs st) n v) eqn:E; cbn; [discriminate|].
  intros H. injection H as ->. apply setattr_raises in E. discriminate.
Qed.

Lemma on_index_nr {A} (m : StErr Index A) :
  never_raises UnauthorizedError m -> never_raises UnauthorizedError (on_index m).
Proof.
  intros Hm st. unfold on_index. specialize (Hm (index st)).
  destruct (m (index st)). exact Hm.
Qed.

Lemma acc_getattr_nr n : never_raises UnauthorizedError (acc_getattr n).
Proof.
  intros st. unfold acc_getattr, getattr, getattr_plain. cbn.
  repeat case_match; discriminate.
Qed.

Lemma parse_account_data_nr parse_currency page uname :
  (forall e, app_data page = PyRaise e -> e = JSONDecodeError \/ e = TypeError) ->
  user_link_name page = Some uname ->
  never_raises UnauthorizedError (parse_account_data parse_currency page).
Proof.
  intros Ha Hu. unfold parse_account_data. rewrite Hu.
  nr_t; try apply acc_setattr_nr.
  - apply nr_lift. intros e He. destruct (Ha e He) as [->| ->]; discriminate.
  - apply nr_lift. intros e He. rewrite (py_int_raises _ _ He). discriminate.
  - apply nr_lift. intros e He. rewrite (rsplit_space_2_raises _ _ He). discriminate.
  - apply nr_lift. intros e He. rewrite (py_int_raises _ _ He). discriminate.
  - apply nr_lift. intros e He. rewrite (py_int_raises _ _ He). discriminate.
  - apply acc_getattr_nr.
  - apply on_index_nr, setup_categories_nr.
Qed.

Lemma ki_ret {A} (a : A) : keeps_index (st_ret a).
Proof. intros st. reflexivity. Qed.

Lemma ki_raise {A} e : keeps_index (A:=A) (st_raise e).
Proof. intros st. reflexivity. Qed.

Lemma ki_lift {A} (r : PyResult A) : keeps_index (st_lift r).
Proof. intros st. reflexivity. Qed.

Lemma ki_bind {A B} (m : StErr AccountState A) (f : A -> StErr AccountState B) :
  keeps_index m -> (forall a, keeps_index (f a)) -> keeps_index (st_bind m f).
Proof.
  intros Hm Hf st. specialize (Hm st). unfold st_bind.
  destruct (m st) as [s' [a|e]]; cbn in *; [rewrite Hf|]; exact Hm.
Qed.

Lemma acc_setattr_ki n v : keeps_index (acc_setattr n v).
Proof. intros st. unfold acc_setattr. case_match; reflexivity. Qed.

Lemma acc_getattr_ki n : keeps_index (acc_getattr n).
Proof. intros st. reflexivity. Qed.

Lemma on_index_ki {A} (m : StErr Index A) :
  (forall ix, fst (m ix) = ix) -> keeps_index (on_index m).
Proof.
  intros Hm st. unfold on_index. specialize (Hm (index st)).
  destruct (m (index st)). cbn in *. exact Hm.
Qed.

(** The game-list containers of a page give no game items: there is none,
    or the one [_setup_categories] picks ([games_table[1]] when there are
    two or more, else [games_table[0]]) has no [div.promo-game-item]. *)
Lemma setup_categories_empty tables ix :
  (tables = [] \/ tables = [[]] \/ exists t0 rest, tables = t0 :: [] :: rest) ->
  _setup_categories tables ix = (ix, PyOk tt).
Proof. intros [->|[->|(t0 & rest & ->)]]; reflexivity. Qed.

Ltac ki_t :=
  repeat match goal with
  | |- keeps_index (st_bind _ _) => apply ki_bind; [|intros ?]
  | |- keeps_index (st_ret _) => apply ki_ret
  | |- keeps_index (st_raise _) => apply ki_raise
  | |- keeps_index (st_lift _) => apply ki_lift
  | |- keeps_index (acc_setattr _ _) => apply acc_setattr_ki
  | |- keeps_index (acc_getattr _) => apply acc_getattr_ki
  | |- keeps_index (match ?x with _ => _ end) => destruct x
  end.

Lemma parse_account_data_keeps_index parse_currency page :
  (game_lists page = [] \/ game_lists page = [[]] \/
   exists t0 rest, game_lists page = t0 :: [] :: rest) ->
  keeps_index (parse_account_data parse_currency page).
Proof.
  intros Hg. unfold parse_account_data. ki_t.
  apply on_index_ki. intros ix. rewrite setup_categories_empty by exact Hg. reflexivity.
Qed.

End HomePageFacts.
(* ------------------------------------------------------------------ *)
(** ** Structure of [_parse_messages] *)

Module ParserFacts.
Import Types Parser.

(** Each message pass 1 outputs is [pre_message] of a kept record, in order. *)
Lemma pass1_shape gmt acc chat iid k c rs c' ms :
  pass1 gmt acc chat iid k c rs = PyOk (c', ms) ->
  Forall2 (fun r m => exists cnt nm,
              message_content acc chat (raw_author r) (raw_html r) = PyOk cnt /\
              m = pre_message gmt chat iid nm r cnt)
          (kept k rs) ms.
Proof.
  revert c ms. induction rs as [|r rs IH]; intros c ms H; cbn in H |- *.
  - injection H as <- <-. constructor.
  - destruct (raw_id r <? k); cbn; [eauto|].
    destruct (resolve_author chat iid c (raw_author r) (raw_html r)) as [c1|] eqn:E1;
      cbn in H; [|discriminate].
    destruct (message_content acc chat (raw_author r) (raw_html r)) as [cnt|] eqn:E2;
      cbn in H; [|discriminate].
    destruct (pass1 gmt acc chat iid k c1 rs) as [[c2 ms2]|] eqn:E3; cbn in H; [|discriminate].
    injection H as <- <-. constructor; eauto.
Qed.

Lemma parse_shape gmt acc chat iid iu k rs ms :
  _parse_messages gmt acc chat iid iu k rs = PyOk ms ->
  exists c pms, pass1 gmt acc chat iid k (init_cache acc iid iu) rs = PyOk (c, pms) /\
                ms = map (finalize acc c) pms.
Proof.
  unfold _parse_messages. cbn.
  destruct (pass1 gmt acc chat iid k (init_cache acc iid iu) rs) as [[c pms]|]; cbn;
    [|discriminate].
  intros H. injection H as <-. eauto.
Qed.

Ltac finalize_t := unfold finalize;
  match goal with |- context [match ?X with (_, _) => _ end] => destruct X as [[[? ?] ?] ?] end;
  match goal with |- context [match ?X with (_, _) => _ end] => destruct X as [[[? ?] ?] ?] end;
  reflexivity.

Lemma finalize_id acc c m : id (finalize acc c m) = id m.
Proof. finalize_t. Qed.
Lemma finalize_text acc c m : text (finalize acc c m) = text m.
Proof. finalize_t. Qed.
Lemma finalize_chat_name acc c m : chat_name (finalize acc c m) = interlocutor_username c.
Proof. finalize_t. Qed.
Lemma finalize_by_bot acc c m : by_bot (finalize acc c m) = by_bot m.
Proof. finalize_t. Qed.
Lemma finalize_by_vertex acc c m : by_vertex (finalize acc c m) = by_vertex m.
Proof. finalize_t. Qed.
Lemma finalize_image_link acc c m : image_link (finalize acc c m) = image_link m.
Proof. finalize_t. Qed.
Lemma finalize_image_name acc c m : image_name (finalize acc c m) = image_name m.
Proof. finalize_t. Qed.
Lemma finalize_type acc c m : type (finalize acc c m) = type m.
Proof. finalize_t. Qed.
Lemma finalize_html acc c m : html (finalize acc c m) = html m.
Proof. finalize_t. Qed.
Lemma finalize_author_id acc c m : author_id (finalize acc c m) = author_id m.
Proof. finalize_t. Qed.

Lemma Forall2_map_r_impl {A B C} (P : A -> B -> Prop) (Q : A -> C -> Prop) (f : B -> C)
    (l : list A) (k : list B) :
  Forall2 P l k -> (forall x y, P x y -> Q x (f y)) -> Forall2 Q l (map f k).
Proof. induction 1; simpl; constructor; auto. Qed.

Lemma Forall2_in_r {A B} (P : A -> B -> Prop) l k y :
  Forall2 P l k -> In y k -> exists x, P x y.
Proof.
  induction 1 as [|x y' l k Hxy _ IH]; simpl; [tauto|].
  intros [<-|H]; eauto.
Qed.

(** The parse output, record by record. *)
Lemma parse_records gmt acc chat iid iu k rs ms :
  _parse_messages gmt acc chat iid iu k rs = PyOk ms ->
  exists c, Forall2 (fun r m => exists cnt nm,
              message_content acc chat (raw_author r) (raw_html r) = PyOk cnt /\
              m = finalize acc c (pre_message gmt chat iid nm r cnt))
            (kept k rs) ms.
Proof.
  intros H. destruct (parse_shape _ _ _ _ _ _ _ _ H) as (c & pms & H1 & ->).
  exists c. eapply Forall2_map_r_impl; [exact (pass1_shape _ _ _ _ _ _ _ _ _ H1)|].
  intros r m (cnt & nm & E & ->). eauto.
Qed.

Lemma parse_in gmt acc chat iid iu k rs ms c pms m :
  _parse_messages gmt acc chat iid iu k rs = PyOk ms ->
  pass1 gmt acc chat iid k (init_cache acc iid iu) rs = PyOk (c, pms) ->
  In m ms ->
  exists r cnt nm, message_content acc chat (raw_author r) (raw_html r) = PyOk cnt /\
                   m = finalize acc c (pre_message gmt chat iid nm r cnt).
Proof.
  intros H H1 Hm. unfold _parse_messages in H. rewrite H1 in H. cbn in H.
  injection H as <-. apply in_map_iff in Hm as (pm & <- & Hin).
  destruct (Forall2_in_r _ _ _ _ (pass1_shape _ _ _ _ _ _ _ _ _ H1) Hin)
    as (r & cnt & nm & E & ->).
  eauto.
Qed.

(** The fields [pre_message] takes from the content and the record. *)
Lemma pre_message_fields gmt chat iid nm r t il iname bb bv :
  let m := pre_message gmt chat iid nm r (t, il, iname, bb, bv) in
  text m = t /\ image_link m = il /\ image_name m = iname /\ by_bot m = bb /\
  by_vertex m = bv /\ author_id m = raw_author r /\ html m = raw_html r /\
  (raw_author r <> 0 -> type m = NON_SYSTEM) /\
  initiator_username m = None /\ initiator_id m = None /\
  i_am_buyer m = None /\ i_am_seller m = None /\
  is_employee m = false /\ is_support m = false /\ is_moderation m = false /\
  is_arbitration m = false /\ is_autoreply m = false.
Proof.
  cbn. repeat split; try reflexivity.
  intros Ha. destruct (raw_author r =? 0) eqn:E; [lia|reflexivity].
Qed.

Lemma attribute_roles_congr me m1 m2 :
  type m1 = type m2 -> html m1 = html m2 ->
  initiator_username m1 = initiator_username m2 -> initiator_id m1 = initiator_id m2 ->
  i_am_buyer m1 = i_am_buyer m2 -> i_am_seller m1 = i_am_seller m2 ->
  attribute_roles me m1 = attribute_roles me m2.
Proof. intros H1 H2 H3 H4 H5 H6. unfold attribute_roles. rewrite H1, H2, H3, H4, H5, H6. reflexivity. Qed.
Lemma finalize_roles acc c m :
  (initiator_username (finalize acc c m), initiator_id (finalize acc c m),
   i_am_buyer (finalize acc c m), i_am_seller (finalize acc c m)) = attribute_roles (acc_id acc) m.
Proof.
  unfold finalize.
  match goal with |- context [match ?X with (_, _) => _ end] => destruct X as [[[? ?] ?] ?] end.
  match goal with |- context [match attribute_roles ?me ?m' with (_, _) => _ end] =>
    rewrite (attribute_roles_congr me m' m) by reflexivity end.
  destruct (attribute_roles (acc_id acc) m) as [[[? ?] ?] ?]; reflexivity.
Qed.
Lemma str_in_spec s l : str_in s l = true <-> In s l.
Proof.
  unfold str_in, str_eqb. rewrite existsb_exists. split.
  - intros (x & Hx & E). apply bool_decide_eq_true in E. subst. exact Hx.
  - intros H. exists s. split; [exact H|]. apply bool_decide_eq_true. reflexivity.
Qed.

Lemma badge_sets_disjoint s :
  (In s support_badges -> str_in s moderation_badges = false /\ str_in s arbitration_badges = false) /\
  (In s moderation_badges -> str_in s arbitration_badges = false).
Proof.
  split; intros H; destruct H as [<-|[<-|[<-|[]]]]; vm_compute; auto.
Qed.

(** The badge-derived flags [finalize] sets on a fresh message. *)
Lemma finalize_badge_flags acc c m :
  is_employee m = false -> is_support m = false -> is_moderation m = false ->
  is_arbitration m = false -> is_autoreply m = false ->
  let resolved := match badges c !! author_id m with Some (BadgeText s) => Some s | _ => None end in
  let m' := finalize acc c m in
  (is_employee m' = true <-> truthy resolved = true) /\
  (is_support m' = true <-> exists s, resolved = Some s /\ In s support_badges) /\
  (is_moderation m' = true <-> exists s, resolved = Some s /\ In s moderation_badges) /\
  (is_arbitration m' = true <-> exists s, resolved = Some s /\ In s arbitration_badges) /\
  (is_autoreply m' = true <->
     exists ad t, author_div (html m) = Some ad /\ default_label ad = Some t /\ In t autoreply_labels).
Proof.
  intros He Hs Hm Ha Har resolved. unfold finalize. fold resolved.
  clearbody resolved.
  destruct (if truthy resolved then _ else _) as [[[emp sup] modr] arb] eqn:E.
  destruct (attribute_roles _ _) as [[[? ?] ?] ?]. cbn [is_employee is_support is_moderation
    is_arbitration is_autoreply].
  rewrite He, Hs, Hm, Ha in E. rewrite Har.
  split; [|split; [|split; [|split]]].
  5: { destruct (author_div (html m)) as [ad|].
       - destruct (default_label ad) as [t|] eqn:Et.
         + destruct (str_in t autoreply_labels) eqn:Ea.
           * split; [intros _; exists ad, t; rewrite <- str_in_spec; auto|auto].
           * split; [discriminate|]. intros (ad' & t' & Had & Ht & Hin).
             injection Had as <-. rewrite Et in Ht. injection Ht as <-.
             apply str_in_spec in Hin. congruence.
         + split; [discriminate|]. intros (ad' & t' & Had & Ht & _).
           injection Had as <-. congruence.
       - split; [discriminate|]. intros (ad' & t' & Had & _). discriminate. }
  all: destruct resolved as [[|ch s]|]; cbv [truthy] in E; cbv beta iota in E.
  all: try (injection E as <- <- <- <-; split; [discriminate|];
            intros (s' & Hs' & Hin); injection Hs' as <-; vm_compute in Hin; intuition discriminate).
  all: try (injection E as <- <- <- <-; split; [discriminate|];
            intros (s' & Hs' & Hin); discriminate).
  all: try (injection E as <- <- <- <-; split; [discriminate|]; intros H; discriminate).
  all: cbv [default from_option Datatypes.id] in E; cbv beta iota zeta in E.
  all: destruct (str_in (ch :: s) support_badges) eqn:E1;
       [|destruct (str_in (ch :: s) moderation_badges) eqn:E2;
         [|destruct (str_in (ch :: s) arbitration_badges) eqn:E3]];
       injection E as <- <- <- <-.
  all: try (split; intros; reflexivity).
  all: try (split; [intros _; eexists; split; [reflexivity|apply str_in_spec; assumption]|reflexivity]).
  all: split; [discriminate|]; intros (s' & Hs' & Hin); injection Hs' as <-;
       apply str_in_spec in Hin; try congruence.
  all: pose proof (badge_sets_disjoint (ch :: s)) as [D1 D2].
  all: try (apply str_in_spec, D1 in E1; intuition congruence).
  all: try (apply str_in_spec, D2 in E2; congruence).
Qed.

End ParserFacts.

(* ------------------------------------------------------------------ *)
(** ** Claims about [_parse_messages] *)

Import Types Parser ParserFacts.

Lemma pre_message_id gmt chat iid nm r cnt :
  Types.id (pre_message gmt chat iid nm r cnt) = raw_id r.
Proof. destruct cnt as [[[[? ?] ?] ?] ?]. reflexivity. Qed.

(** C5: with threshold [from_id = k], the returned messages are exactly the
    records whose id is at least [k], in their input order. *)
Theorem parse_messages_from_id_filter gmt acc chat iid iu k rs ms :
  _parse_messages gmt acc chat iid iu k rs = PyOk ms ->
  map Types.id ms = map raw_id (List.filter (fun r => negb (raw_id r <? k)) rs).
Proof.
  intros H. destruct (parse_shape _ _ _ _ _ _ _ _ H) as (c & pms & H1 & ->).
  apply pass1_shape in H1. fold (kept k rs). clear H.
  induction H1 as [|r m rs' ms' (cnt & nm & _ & ->) _ IH]; [reflexivity|].
  simpl. rewrite finalize_id, pre_message_id. f_equal. exact IH.
Qed.

(** C7: after pass 2 every message of the batch carries the interlocutor
    name as it stands at the end of pass 1. *)
Theorem parse_messages_chat_name_backfill gmt acc chat iid iu k rs ms c pms :
  _parse_messages gmt acc chat iid iu k rs = PyOk ms ->
  pass1 gmt acc chat iid k (init_cache acc iid iu) rs = PyOk (c, pms) ->
  forall m, In m ms -> Types.chat_name m = interlocutor_username c.
Proof.
  intros H H1 m Hm. unfold _parse_messages in H. rewrite H1 in H. cbn in H.
  injection H as <-. apply in_map_iff in Hm as (pm & <- & _).
  apply finalize_chat_name.
Qed.

(** C1, as the code has it: a text starting with the current marker loses
    exactly its first character and is marked [by_bot], whoever wrote it; a
    text starting with the legacy marker (and not the current one) does so
    only when the author is the local account; every other text is kept and
    [by_bot] is false. *)
Theorem parse_messages_bot_marker gmt acc chat iid iu k rs ms bc obc :
  acc_bot_character acc = PyOk bc ->
  acc_old_bot_character acc = PyOk obc ->
  _parse_messages gmt acc chat iid iu k rs = PyOk ms ->
  Forall2 (fun r m =>
    (chat_id_private chat = false \/ img_link (raw_html r) = None) ->
    exists t, extract_text (raw_author r) (raw_html r) = PyOk t /\
      (startswith t bc = true -> text m = Some (drop1 t) /\ by_bot m = true) /\
      (startswith t bc = false -> startswith t obc = true -> raw_author r = acc_id acc ->
         text m = Some (drop1 t) /\ by_bot m = true) /\
      (startswith t bc = false -> (startswith t obc = false \/ raw_author r <> acc_id acc) ->
         text m = Some t /\ by_bot m = false))
    (List.filter (fun r => negb (raw_id r <? k)) rs) ms.
Proof.
  intros Hbc Hobc H. destruct (parse_records _ _ _ _ _ _ _ _ H) as [c Hall].
  eapply Forall2_impl; [exact Hall|]. intros r m (cnt & nm & E & ->) Himg.
  rewrite finalize_text, finalize_by_bot.
  unfold message_content in E.
  assert (Hn : (if chat_id_private chat then img_link (raw_html r) else None) = None)
    by (destruct Himg as [-> | ->]; [reflexivity | destruct (chat_id_private chat); reflexivity]).
  rewrite Hn in E. cbn in E.
  destruct (extract_text (raw_author r) (raw_html r)) as [t|] eqn:Et; cbn in E; [|discriminate].
  exists t. split; [reflexivity|].
  unfold strip_bot_marker in E. rewrite Hbc in E. cbn in E.
  destruct (startswith t bc) eqn:Eb; cbn in E.
  - injection E as <-.
    destruct (pre_message_fields gmt chat iid nm r (Some (drop1 t)) None None true false)
      as (-> & _ & _ & -> & _).
    split; [auto|]. split; intros; discriminate.
  - rewrite Hobc in E. cbn in E.
    destruct (startswith t obc) eqn:Eo; destruct (raw_author r =? acc_id acc) eqn:Ea;
      cbn in E; injection E as <-;
      match goal with |- context [pre_message _ _ _ _ _ (?a, ?b, ?c, ?d, ?e)] =>
        destruct (pre_message_fields gmt chat iid nm r a b c d e) as (-> & _ & _ & -> & _) end.
    + split; [discriminate|]. split; [auto|]. intros _ [?|?]; [discriminate|lia].
    + split; [discriminate|]. split; [intros _ _ ?; lia|auto].
    + split; [discriminate|]. split; [discriminate|auto].
    + split; [discriminate|]. split; [discriminate|auto].
Qed.

(** C8: an image record of a private chat gives a message without text, with
    the anchor's [img] alt as image name and its href as image link; [by_bot]
    is whether the lower-cased name contains the current bot-stamp substring
    [funpay_cardinal] (true for both stamp file names of the current bot),
    [by_vertex] whether it is the legacy stamp file name, and never both. *)
Theorem parse_messages_image_record gmt acc chat iid iu k rs ms :
  chat_id_private chat = true ->
  _parse_messages gmt acc chat iid iu k rs = PyOk ms ->
  Forall2 (fun r m => forall ia, img_link (raw_html r) = Some ia ->
    text m = None /\ image_name m = img_alt ia /\ image_link m = img_href ia /\
    by_bot m = match img_alt ia with
               | Some n => contains (lower n) (u "funpay_cardinal")
               | None => false
               end /\
    ((img_alt ia = Some (u "funpay_cardinal_image.png") \/
      img_alt ia = Some (u "Отправлено_с_помощью_бота_FunPay_Cardinal.png")) ->
       by_bot m = true) /\
    by_vertex m = bool_decide (img_alt ia = Some (u "funpay_vertex_image.png")) /\
    negb (by_bot m && by_vertex m) = true)
    (List.filter (fun r => negb (raw_id r <? k)) rs) ms.
Proof.
  intros Hp H. destruct (parse_records _ _ _ _ _ _ _ _ H) as [c Hall].
  eapply Forall2_impl; [exact Hall|]. intros r m (cnt & nm & E & ->) ia Hia.
  rewrite finalize_text, finalize_by_bot, finalize_by_vertex, finalize_image_name,
    finalize_image_link.
  unfold message_content in E. rewrite Hp, Hia in E.
  injection E as <-.
  match goal with |- context [pre_message _ _ _ _ _ (?a, ?b, ?c, ?d, ?e)] =>
    destruct (pre_message_fields gmt chat iid nm r a b c d e) as (-> & -> & -> & -> & -> & _) end.
  destruct (img_alt ia) as [n|] eqn:En.
  - destruct (contains (lower n) (u "funpay_cardinal")) eqn:Ec.
    + assert (n <> u "funpay_vertex_image.png")
        by (intros ->; vm_compute in Ec; discriminate).
      rewrite bool_decide_false by congruence.
      repeat split; auto.
    + repeat split; auto.
      intros [Hn|Hn]; injection Hn as ->; vm_compute in Ec; discriminate.
  - repeat split; auto. intros [Hn|Hn]; discriminate.
Qed.

Lemma badge_phrase_nonempty s :
  In s support_badges \/ In s moderation_badges \/ In s arbitration_badges ->
  truthy (Some s) = true.
Proof.
  intros [H|[H|H]]; destruct H as [<-|[<-|[<-|[]]]]; reflexivity.
Qed.

(** C10: on every parsed message at most one of [is_support],
    [is_moderation], [is_arbitration] holds, each of them implies
    [is_employee], [is_employee] holds exactly when the author's badge
    resolved at the end of pass 1 is a non-empty text (whatever that text
    is), each role flag holds exactly when that badge is in its phrase set,
    and the auto-reply label only decides [is_autoreply]. *)
Theorem parse_messages_badge_flags gmt acc chat iid iu k rs ms c pms m :
  _parse_messages gmt acc chat iid iu k rs = PyOk ms ->
  pass1 gmt acc chat iid k (init_cache acc iid iu) rs = PyOk (c, pms) ->
  In m ms ->
  let resolved :=
    match badges c !! author_id m with Some (BadgeText s) => Some s | _ => None end in
  (Nat.le (length (List.filter (fun b : bool => b)
                     [is_support m; is_moderation m; is_arbitration m])) 1) /\
  (is_support m || is_moderation m || is_arbitration m = true -> is_employee m = true) /\
  (is_employee m = true <-> truthy resolved = true) /\
  (is_support m = true <-> exists s, resolved = Some s /\ In s support_badges) /\
  (is_moderation m = true <-> exists s, resolved = Some s /\ In s moderation_badges) /\
  (is_arbitration m = true <-> exists s, resolved = Some s /\ In s arbitration_badges) /\
  (is_autoreply m = true <->
     exists ad t, author_div (html m) = Some ad /\ default_label ad = Some t /\
                  In t autoreply_labels).
Proof.
  intros H H1 Hm. cbv zeta.
  destruct (parse_in _ _ _ _ _ _ _ _ _ _ _ H H1 Hm) as (r & cnt & nm & _ & ->).
  destruct cnt as [[[[t il] iname] bb] bv].
  destruct (pre_message_fields gmt chat iid nm r t il iname bb bv)
    as (_ & _ & _ & _ & _ & _ & _ & _ & _ & _ & _ & _ & He & Hs & Hmo & Ha & Har).
  pose proof (finalize_badge_flags acc c _ He Hs Hmo Ha Har) as B. cbv zeta in B.
  rewrite finalize_author_id, finalize_html.
  destruct B as (Be & Bs & Bm & Ba & Bar).
  set (m' := finalize acc c _) in *.
  set (rb := match badges c !! _ with Some (BadgeText s) => Some s | _ => None end) in *.
  split; [|split; [|split; [exact Be|split; [exact Bs|split; [exact Bm|split; [exact Ba|exact Bar]]]]]].
  - destruct (is_support m') eqn:S1, (is_moderation m') eqn:S2, (is_arbitration m') eqn:S3;
      cbn; try lia; exfalso;
      repeat match goal with
      | Bx : true = true <-> _ |- _ =>
          destruct Bx as [Bx _]; specialize (Bx eq_refl); destruct Bx as (?s & ?Hr & ?Hi)
      end;
      repeat match goal with
      | Hx : rb = Some ?s1, Hy : rb = Some ?s2 |- _ =>
          rewrite Hx in Hy; injection Hy as <-
      end;
      match goal with Hx : rb = Some ?s |- _ =>
        destruct (badge_sets_disjoint s) as [D1 D2] end;
      clear Bar Be; rewrite <- !str_in_spec in *;
      intuition congruence.
  - intros Hf. apply Be.
    assert (X : is_support m' = true \/ is_moderation m' = true \/ is_arbitration m' = true)
      by (destruct (is_support m'), (is_moderation m'), (is_arbitration m');
          cbn in Hf; auto; discriminate).
    destruct X as [X|[X|X]]; [apply Bs in X|apply Bm in X|apply Ba in X];
      destruct X as (s & -> & Hi);
      apply badge_phrase_nonempty; auto.
Qed.

Lemma last_cons_self {A} (x : A) rest : List.last (x :: rest) x = List.last rest x.
Proof. destruct rest; reflexivity. Qed.

Lemma type_in_spec t ts : type_in t ts = true <-> In t ts.
Proof.
  unfold type_in. rewrite existsb_exists. split.
  - intros (x & Hx & E). apply bool_decide_eq_true in E. subst. exact Hx.
  - intros H. exists t. split; [exact H|]. apply bool_decide_eq_true. reflexivity.
Qed.

Ltac not_in_t H :=
  repeat (destruct H as [H|H]; [discriminate|]); contradiction.

Lemma buyer_reply_disjoint t : In t buyer_initiated_types -> type_in t reply_types = false.
Proof. intros H. destruct H as [<-|[<-|[<-|[<-|[<-|[]]]]]]; reflexivity. Qed.

(** C2: a parsed message of a system type was written by user 0; when its
    markup has no profile link, no initiator and no role is set; otherwise
    the first link gives the initiator, the buyer-initiated types make the
    local account the buyer iff it is the initiator, the reply and refund
    types the seller iff it is the initiator, and with two links or more
    the last link decides: for [ORDER_CONFIRMED_BY_ADMIN] the local account
    is the seller iff it is that user, for [REFUND_BY_ADMIN] the buyer. *)
Theorem parse_messages_system_roles gmt acc chat iid iu k rs ms m :
  _parse_messages gmt acc chat iid iu k rs = PyOk ms ->
  In m ms ->
  type m <> NON_SYSTEM ->
  author_id m = 0 /\
  match user_links (html m) with
  | [] => initiator_username m = None /\ initiator_id m = None /\
          i_am_buyer m = None /\ i_am_seller m = None
  | (uname, uid) :: rest =>
      initiator_username m = Some uname /\ initiator_id m = Some uid /\
      (In (type m) buyer_initiated_types ->
         i_am_buyer m = Some (uid =? acc_id acc) /\
         i_am_seller m = Some (negb (uid =? acc_id acc))) /\
      (In (type m) reply_types ->
         i_am_buyer m = Some (negb (uid =? acc_id acc)) /\
         i_am_seller m = Some (uid =? acc_id acc)) /\
      (rest <> [] ->
       let last_id := snd (List.last (user_links (html m)) (uname, uid)) in
       (type m = ORDER_CONFIRMED_BY_ADMIN ->
          i_am_seller m = Some (last_id =? acc_id acc) /\
          i_am_buyer m = Some (negb (last_id =? acc_id acc))) /\
       (type m = REFUND_BY_ADMIN ->
          i_am_buyer m = Some (last_id =? acc_id acc) /\
          i_am_seller m = Some (negb (last_id =? acc_id acc))))
  end.
Proof.
  intros H Hm Ht.
  destruct (parse_shape _ _ _ _ _ _ _ _ H) as (c & pms & H1 & _).
  destruct (parse_in _ _ _ _ _ _ _ _ _ _ _ H H1 Hm) as (r & cnt & nm & _ & ->).
  destruct cnt as [[[[t il] iname] bb] bv].
  set (pm := pre_message gmt chat iid nm r (t, il, iname, bb, bv)) in *.
  destruct (pre_message_fields gmt chat iid nm r t il iname bb bv)
    as (_ & _ & _ & _ & _ & Ha & _ & Hty & Hiu & Hii & Hib & His & _).
  fold pm in Ha, Hty, Hiu, Hii, Hib, His.
  rewrite finalize_type in *. rewrite finalize_html, finalize_author_id, Ha.
  split; [destruct (Z.eq_dec (raw_author r) 0); [assumption|tauto]|].
  pose proof (finalize_roles acc c pm) as R.
  destruct (finalize acc c pm) as [? ? ? ? ? ? ? ? ? ? ? ? ? ? ? ? ? ? ? iun0 iid0 b0 s0].
  cbn [initiator_username initiator_id i_am_buyer i_am_seller] in *.
  unfold attribute_roles in R.
  rewrite bool_decide_true in R by exact Ht.
  destruct (user_links (html pm)) as [|[uname uid] rest] eqn:Eu.
  - rewrite Hiu, Hii, Hib, His in R. injection R as -> -> -> ->. auto.
  - rewrite last_cons_self.
    destruct (type_in (type pm) buyer_initiated_types) eqn:Eb.
    + apply type_in_spec in Eb.
      destruct (uid =? acc_id acc) eqn:Ei; injection R as -> -> -> ->;
        (split; [reflexivity|]); (split; [reflexivity|]); (split; [auto|]);
        (split; [intros Hr; apply type_in_spec in Hr; rewrite buyer_reply_disjoint in Hr;
                 [discriminate|exact Eb]|]);
        intros _; cbv zeta; split; intros Hc; rewrite Hc in Eb; not_in_t Eb.
    + destruct (type_in (type pm) reply_types) eqn:Er.
      * apply type_in_spec in Er.
        destruct (uid =? acc_id acc) eqn:Ei; injection R as -> -> -> ->;
          (split; [reflexivity|]); (split; [reflexivity|]);
          (split; [intros Hb; apply type_in_spec in Hb; congruence|]); (split; [auto|]);
          intros _; cbv zeta; split; intros Hc; rewrite Hc in Er; not_in_t Er.
      * assert (Hnb : ~ In (type pm) buyer_initiated_types)
          by (rewrite <- type_in_spec; congruence).
        assert (Hnr : ~ In (type pm) reply_types)
          by (rewrite <- type_in_spec; congruence).
        (split; [|split; [|split; [tauto|split; [tauto|]]]]).
        1, 2: destruct rest as [|x rest']; cbn [length Nat.ltb Nat.leb] in R;
          repeat case_match; injection R as -> -> _ _; reflexivity.
        destruct rest as [|x rest']; [tauto|]. intros _. cbv zeta.
        cbn [length Nat.ltb Nat.leb] in R.
        split; intros Hc; rewrite Hc in R;
          [rewrite bool_decide_true in R by reflexivity
          |rewrite bool_decide_false, bool_decide_true in R by (reflexivity || discriminate)];
          destruct (snd (List.last (x :: rest') (uname, uid)) =? acc_id acc);
          injection R as -> -> -> ->; split; reflexivity.
Qed.

(* ------------------------------------------------------------------ *)
(** ** Claims about the account object *)

(** C3: [AsyncAccount.__init__] succeeds, yet reading [is_initiated],
    [bot_character] or [old_bot_character] on the new account raises
    [AttributeError] (the getters read the mangled [_AccountMixin__...]
    names, [__init__] sets [_initiated], [_bot_character] and
    [_old_bot_character]); so the [is_initiated] guard of every public method
    raises [AttributeError] whatever the body, and so does the bot-marker
    step of [_parse_messages] on a view of this account. *)
Theorem async_account_marker_properties_raise golden_key user_agent locale :
  exists d, AccountObj.async_account_init golden_key user_agent locale = PyOk d /\
  AccountObj.getattr d "is_initiated" = PyRaise AttributeError /\
  AccountObj.getattr d "bot_character" = PyRaise AttributeError /\
  AccountObj.getattr d "old_bot_character" = PyRaise AttributeError /\
  (forall A (body : PyResult A), AccountObj.guarded d body = PyRaise AttributeError) /\
  (forall id0 username0 a t,
     strip_bot_marker (AccountObj.parser_view d id0 username0) a t = PyRaise AttributeError).
Proof.
  eexists. split; [reflexivity|].
  split; [vm_compute; reflexivity|]. split; [vm_compute; reflexivity|].
  split; [vm_compute; reflexivity|].
  split; [intros A body; vm_compute; reflexivity|].
  intros; vm_compute; reflexivity.
Qed.

(* ------------------------------------------------------------------ *)
(** ** Claims about [send_message] *)

(** C4, as stated, fails: a 200 answer whose error text is a flood phrase
    does not yield a result of [send_message]. *)
Lemma send_message_flood_not_a_result :
  ~ (forall st now err,
       str_in err SendMessage.flood_phrases = true ->
       exists v, snd (SendMessage.send_message_response st now 200 (Some (Some err))) = PyOk v).
Proof.
  intros Hc.
  destruct (Hc {| SendMessage.last_flood_err_time := 0;
                  SendMessage.last_multiuser_flood_err_time := 0 |} 1700000000
               (u "You cannot send messages too frequently.") eq_refl) as [v Hv].
  vm_compute in Hv. discriminate.
Qed.

(** C4, as the code has it: on a 200 answer whose error text is in one of
    the two flood phrase sets, the matching timestamp (per-message or
    multi-user) is set to the current time, the other one is kept, and
    [MessageNotDeliveredError] carrying the error text is raised. *)
Theorem send_message_flood_raises st now err :
  str_in err SendMessage.flood_phrases = true \/
  str_in err SendMessage.multiuser_flood_phrases = true ->
  snd (SendMessage.send_message_response st now 200 (Some (Some err))) =
    PyRaise (MessageNotDeliveredError (Some err)) /\
  (str_in err SendMessage.flood_phrases = true ->
     fst (SendMessage.send_message_response st now 200 (Some (Some err))) =
     {| SendMessage.last_flood_err_time := now;
        SendMessage.last_multiuser_flood_err_time :=
          SendMessage.last_multiuser_flood_err_time st |}) /\
  (str_in err SendMessage.flood_phrases = false ->
     fst (SendMessage.send_message_response st now 200 (Some (Some err))) =
     {| SendMessage.last_flood_err_time := SendMessage.last_flood_err_time st;
        SendMessage.last_multiuser_flood_err_time := now |}).
Proof.
  intros H. unfold SendMessage.send_message_response. cbn [Z.eqb negb Pos.eqb].
  destruct (str_in err SendMessage.flood_phrases) eqn:E1.
  - repeat split; [discriminate].
  - destruct H as [H|H]; [discriminate|]. rewrite H. repeat split. discriminate.
Qed.

(* ------------------------------------------------------------------ *)
(** ** Claims about private chat ids *)

(** C6: the private chat id of two users is
    ["users-" ++ min ++ "-" ++ max], so it does not depend on their order,
    and [parse_order] (on either tab) and [parse_sales] both give the chat id
    of the local account and the other party. *)
Theorem private_chat_id_order_free a b :
  ChatIds.private_chat_id a b =
    u "users-" ++ str_of_int (Z.min a b) ++ u "-" ++ str_of_int (Z.max a b) /\
  ChatIds.private_chat_id a b = ChatIds.private_chat_id b a /\
  (forall sales_tab, ChatIds.order_chat_id sales_tab a b = ChatIds.private_chat_id a b) /\
  ChatIds.sales_chat_id a b = ChatIds.private_chat_id a b.
Proof.
  assert (F : forall x y, ChatIds.private_chat_id x y =
    u "users-" ++ str_of_int (Z.min x y) ++ u "-" ++ str_of_int (Z.max x y)).
  { intros x y. unfold ChatIds.private_chat_id, ChatIds.sorted2.
    destruct (y <? x) eqn:E.
    - apply Z.ltb_lt in E. rewrite Z.min_r, Z.max_l by lia. reflexivity.
    - apply Z.ltb_ge in E. rewrite Z.min_l, Z.max_r by lia. reflexivity. }
  assert (S : forall x y, ChatIds.private_chat_id x y = ChatIds.private_chat_id y x)
    by (intros x y; rewrite !F, Z.min_comm, Z.max_comm; reflexivity).
  split; [apply F|]. split; [apply S|]. split.
  - intros []; cbn; [apply S|reflexivity].
  - apply S.
Qed.

(* ------------------------------------------------------------------ *)
(** ** Claims about [parse_account_data] and [_setup_categories] *)

(** C9: when [data-app-data] fails to load only as [json.loads] fails
    ([JSONDecodeError], or [TypeError] on a missing attribute),
    [parse_account_data] raises [UnauthorizedError] exactly when the page
    has no [div.user-link-name]; and when the game-list container it would
    use is missing or has no game item, [_setup_categories] returns without
    error and without adding anything, so [parse_account_data] leaves the
    category index as it was. *)
Theorem parse_account_data_auth_marker parse_currency page st :
  (forall e, HomePage.app_data page = PyRaise e -> e = JSONDecodeError \/ e = TypeError) ->
  (snd (HomePage.parse_account_data parse_currency page st) = PyRaise UnauthorizedError <->
   HomePage.user_link_name page = None) /\
  ((HomePage.game_lists page = [] \/ HomePage.game_lists page = [[]] \/
    exists t0 rest, HomePage.game_lists page = t0 :: [] :: rest) ->
   (forall ix, HomePage._setup_categories (HomePage.game_lists page) ix = (ix, PyOk tt)) /\
   HomePage.index (fst (HomePage.parse_account_data parse_currency page st)) =
     HomePage.index st).
Proof.
  intros Ha. split.
  - destruct (HomePage.user_link_name page) as [uname|] eqn:Hu.
    + split; [|discriminate]. intros H. exfalso.
      exact (HomePageFacts.parse_account_data_nr _ _ _ Ha Hu st H).
    + unfold HomePage.parse_account_data. rewrite Hu. split; reflexivity.
  - intros Hg. split.
    + intros ix. apply HomePageFacts.setup_categories_empty, Hg.
    + apply HomePageFacts.parse_account_data_keeps_index, Hg.
Qed.

(* ------------------------------------------------------------------ *)
(** ** [_parse_messages] on the sample batch *)

(** C1 as stated fails: a message of another user starting with the
    current marker loses its first character and is marked [by_bot]. *)
Lemma parse_messages_bot_marker_other_author :
  ~ (forall gmt acc chat iid iu k rs ms,
       _parse_messages gmt acc chat iid iu k rs = PyOk ms ->
       Forall2 (fun r m => img_link (raw_html r) = None ->
         forall t, extract_text (raw_author r) (raw_html r) = PyOk t ->
         raw_author r <> acc_id acc -> text m = Some t /\ by_bot m = false)
       (List.filter (fun r => negb (raw_id r <? k)) rs) ms).
Proof.
  intros Hc.
  specialize (Hc Samples.gmt0 Samples.acc0 (ChatInt 5) (Some 7) None 0 Samples.rs_other
                 Samples.ms_other ltac:(vm_compute; reflexivity)).
  inversion Hc as [|r m rs' ms' Hrm _ Hr Hm]; subst.
  destruct (Hrm eq_refl (u "⁡hi") (eq_refl _) ltac:(vm_compute; discriminate)) as [Ht _].
  vm_compute in Ht. discriminate.
Qed.

Lemma parse_messages_from_id_filter_witness :
  _parse_messages Samples.gmt0 Samples.acc0 Samples.chat0 (Some 42) None 4 Samples.rs0 =
    PyOk Samples.ms0 /\
  map Types.id Samples.ms0 =
    map raw_id (List.filter (fun r => negb (raw_id r <? 4)) Samples.rs0).
Proof.
  assert (H : _parse_messages Samples.gmt0 Samples.acc0 Samples.chat0 (Some 42) None 4
                Samples.rs0 = PyOk Samples.ms0) by (vm_compute; reflexivity).
  exact (conj H (parse_messages_from_id_filter _ _ _ _ _ _ _ _ H)).
Defined.

Lemma parse_messages_chat_name_backfill_witness :
  _parse_messages Samples.gmt0 Samples.acc0 Samples.chat0 (Some 42) None 4 Samples.rs0 =
    PyOk Samples.ms0 /\
  pass1 Samples.gmt0 Samples.acc0 Samples.chat0 (Some 42) 4
    (init_cache Samples.acc0 (Some 42) None) Samples.rs0 =
    PyOk (fst Samples.pass1_0, snd Samples.pass1_0) /\
  (forall m, In m Samples.ms0 ->
     Types.chat_name m = interlocutor_username (fst Samples.pass1_0)).
Proof.
  assert (H : _parse_messages Samples.gmt0 Samples.acc0 Samples.chat0 (Some 42) None 4
                Samples.rs0 = PyOk Samples.ms0) by (vm_compute; reflexivity).
  assert (H1 : pass1 Samples.gmt0 Samples.acc0 Samples.chat0 (Some 42) 4
                 (init_cache Samples.acc0 (Some 42) None) Samples.rs0 =
               PyOk (fst Samples.pass1_0, snd Samples.pass1_0)) by (vm_compute; reflexivity).
  exact (conj H (conj H1 (parse_messages_chat_name_backfill _ _ _ _ _ _ _ _ _ _ H H1))).
Defined.

Lemma parse_messages_bot_marker_witness :
  acc_bot_character Samples.acc0 = PyOk (u "⁡") /\
  acc_old_bot_character Samples.acc0 = PyOk (u "⁤") /\
  _parse_messages Samples.gmt0 Samples.acc0 Samples.chat0 (Some 42) None 4 Samples.rs0 =
    PyOk Samples.ms0 /\
  Forall2 (fun r m =>
    (chat_id_private Samples.chat0 = false \/ img_link (raw_html r) = None) ->
    exists t, extract_text (raw_author r) (raw_html r) = PyOk t /\
      (startswith t (u "⁡") = true -> text m = Some (drop1 t) /\ by_bot m = true) /\
      (startswith t (u "⁡") = false -> startswith t (u "⁤") = true ->
         raw_author r = acc_id Samples.acc0 -> text m = Some (drop1 t) /\ by_bot m = true) /\
      (startswith t (u "⁡") = false ->
         (startswith t (u "⁤") = false \/ raw_author r <> acc_id Samples.acc0) ->
         text m = Some t /\ by_bot m = false))
    (List.filter (fun r => negb (raw_id r <? 4)) Samples.rs0) Samples.ms0.
Proof.
  assert (H1 : acc_bot_character Samples.acc0 = PyOk (u "⁡")) by reflexivity.
  assert (H2 : acc_old_bot_character Samples.acc0 = PyOk (u "⁤")) by reflexivity.
  assert (H : _parse_messages Samples.gmt0 Samples.acc0 Samples.chat0 (Some 42) None 4
                Samples.rs0 = PyOk Samples.ms0) by (vm_compute; reflexivity).
  exact (conj H1 (conj H2 (conj H (parse_messages_bot_marker _ _ _ _ _ _ _ _ _ _ H1 H2 H)))).
Defined.

Lemma parse_messages_image_record_witness :
  chat_id_private Samples.chat0 = true /\
  _parse_messages Samples.gmt0 Samples.acc0 Samples.chat0 (Some 42) None 4 Samples.rs0 =
    PyOk Samples.ms0 /\
  Forall2 (fun r m => forall ia, img_link (raw_html r) = Some ia ->
    text m = None /\ image_name m = img_alt ia /\ image_link m = img_href ia /\
    by_bot m = match img_alt ia with
               | Some n => contains (lower n) (u "funpay_cardinal")
               | None => false
               end /\
    ((img_alt ia = Some (u "funpay_cardinal_image.png") \/
      img_alt ia = Some (u "Отправлено_с_помощью_бота_FunPay_Cardinal.png")) ->
       by_bot m = true) /\
    by_vertex m = bool_decide (img_alt ia = Some (u "funpay_vertex_image.png")) /\
    negb (by_bot m && by_vertex m) = true)
    (List.filter (fun r => negb (raw_id r <? 4)) Samples.rs0) Samples.ms0.
Proof.
  assert (Hp : chat_id_private Samples.chat0 = true) by (vm_compute; reflexivity).
  assert (H : _parse_messages Samples.gmt0 Samples.acc0 Samples.chat0 (Some 42) None 4
                Samples.rs0 = PyOk Samples.ms0) by (vm_compute; reflexivity).
  exact (conj Hp (conj H (parse_messages_image_record _ _ _ _ _ _ _ _ Hp H))).
Defined.

(** The support agent's message, fifth of the sample results. *)
Lemma parse_messages_badge_flags_witness :
  _parse_messages Samples.gmt0 Samples.acc0 Samples.chat0 (Some 42) None 4 Samples.rs0 =
    PyOk Samples.ms0 /\
  pass1 Samples.gmt0 Samples.acc0 Samples.chat0 (Some 42) 4
    (init_cache Samples.acc0 (Some 42) None) Samples.rs0 =
    PyOk (fst Samples.pass1_0, snd Samples.pass1_0) /\
  In (nth 4 Samples.ms0 (Types.Message_new 0 None Samples.chat0 None None None 0
                           Samples.markup0 None None)) Samples.ms0 /\
  (let m := nth 4 Samples.ms0 (Types.Message_new 0 None Samples.chat0 None None None 0
                                 Samples.markup0 None None) in
   let resolved :=
     match badges (fst Samples.pass1_0) !! author_id m with
     | Some (BadgeText s) => Some s | _ => None end in
   (Nat.le (length (List.filter (fun b : bool => b)
                      [is_support m; is_moderation m; is_arbitration m])) 1) /\
   (is_support m || is_moderation m || is_arbitration m = true -> is_employee m = true) /\
   (is_employee m = true <-> truthy resolved = true) /\
   (is_support m = true <-> exists s, resolved = Some s /\ In s support_badges) /\
   (is_moderation m = true <-> exists s, resolved = Some s /\ In s moderation_badges) /\
   (is_arbitration m = true <-> exists s, resolved = Some s /\ In s arbitration_badges) /\
   (is_autoreply m = true <->
      exists ad t, author_div (html m) = Some ad /\ default_label ad = Some t /\
                   In t autoreply_labels)).
Proof.
  assert (H : _parse_messages Samples.gmt0 Samples.acc0 Samples.chat0 (Some 42) None 4
                Samples.rs0 = PyOk Samples.ms0) by (vm_compute; reflexivity).
  assert (H1 : pass1 Samples.gmt0 Samples.acc0 Samples.chat0 (Some 42) 4
                 (init_cache Samples.acc0 (Some 42) None) Samples.rs0 =
               PyOk (fst Samples.pass1_0, snd Samples.pass1_0)) by (vm_compute; reflexivity).
  assert (Hm : In (nth 4 Samples.ms0 (Types.Message_new 0 None Samples.chat0 None None None 0
                                        Samples.markup0 None None)) Samples.ms0)
    by (apply nth_In; vm_compute; lia).
  exact (conj H (conj H1 (conj Hm (parse_messages_badge_flags _ _ _ _ _ _ _ _ _ _ _ H H1 Hm)))).
Defined.

(** The confirmation notice, first of the sample results. *)
Lemma parse_messages_system_roles_witness :
  _parse_messages Samples.gmt0 Samples.acc0 Samples.chat0 (Some 42) None 4 Samples.rs0 =
    PyOk Samples.ms0 /\
  In (nth 0 Samples.ms0 (Types.Message_new 0 None Samples.chat0 None None None 0
                           Samples.markup0 None None)) Samples.ms0 /\
  (let m := nth 0 Samples.ms0 (Types.Message_new 0 None Samples.chat0 None None None 0
                                 Samples.markup0 None None) in
   type m <> NON_SYSTEM /\
   author_id m = 0 /\
   match user_links (html m) with
   | [] => initiator_username m = None /\ initiator_id m = None /\
           i_am_buyer m = None /\ i_am_seller m = None
   | (uname, uid) :: rest =>
       initiator_username m = Some uname /\ initiator_id m = Some uid /\
       (In (type m) buyer_initiated_types ->
          i_am_buyer m = Some (uid =? acc_id Samples.acc0) /\
          i_am_seller m = Some (negb (uid =? acc_id Samples.acc0))) /\
       (In (type m) reply_types ->
          i_am_buyer m = Some (negb (uid =? acc_id Samples.acc0)) /\
          i_am_seller m = Some (uid =? acc_id Samples.acc0)) /\
       (rest <> [] ->
        let last_id := snd (List.last (user_links (html m)) (uname, uid)) in
        (type m = ORDER_CONFIRMED_BY_ADMIN ->
           i_am_seller m = Some (last_id =? acc_id Samples.acc0) /\
           i_am_buyer m = Some (negb (last_id =? acc_id Samples.acc0))) /\
        (type m = REFUND_BY_ADMIN ->
           i_am_buyer m = Some (last_id =? acc_id Samples.acc0) /\
           i_am_seller m = Some (negb (last_id =? acc_id Samples.acc0))))
   end).
Proof.
  assert (H : _parse_messages Samples.gmt0 Samples.acc0 Samples.chat0 (Some 42) None 4
                Samples.rs0 = PyOk Samples.ms0) by (vm_compute; reflexivity).
  assert (Hm : In (nth 0 Samples.ms0 (Types.Message_new 0 None Samples.chat0 None None None 0
                                        Samples.markup0 None None)) Samples.ms0)
    by (apply nth_In; vm_compute; lia).
  assert (Ht : type (nth 0 Samples.ms0 (Types.Message_new 0 None Samples.chat0 None None None 0
                                          Samples.markup0 None None)) <> NON_SYSTEM)
    by (vm_compute; discriminate).
  exact (conj H (conj Hm (conj Ht (parse_messages_system_roles _ _ _ _ _ _ _ _ _ H Hm Ht)))).
Defined.

(* ------------------------------------------------------------------ *)
(** ** The other claims on sample inputs *)

Lemma send_message_flood_raises_witness :
  (str_in (u "You cannot send messages too frequently.") SendMessage.flood_phrases = true \/
   str_in (u "You cannot send messages too frequently.")
     SendMessage.multiuser_flood_phrases = true) /\
  let st := {| SendMessage.last_flood_err_time := 0;
               SendMessage.last_multiuser_flood_err_time := 0 |} in
  let err := u "You cannot send messages too frequently." in
  snd (SendMessage.send_message_response st 1700000000 200 (Some (Some err))) =
    PyRaise (MessageNotDeliveredError (Some err)) /\
  (str_in err SendMessage.flood_phrases = true ->
     fst (SendMessage.send_message_response st 1700000000 200 (Some (Some err))) =
     {| SendMessage.last_flood_err_time := 1700000000;
        SendMessage.last_multiuser_flood_err_time :=
          SendMessage.last_multiuser_flood_err_time st |}) /\
  (str_in err SendMessage.flood_phrases = false ->
     fst (SendMessage.send_message_response st 1700000000 200 (Some (Some err))) =
     {| SendMessage.last_flood_err_time := SendMessage.last_flood_err_time st;
        SendMessage.last_multiuser_flood_err_time := 1700000000 |}).
Proof.
  assert (H : str_in (u "You cannot send messages too frequently.") SendMessage.flood_phrases = true \/
              str_in (u "You cannot send messages too frequently.")
                SendMessage.multiuser_flood_phrases = true) by (left; vm_compute; reflexivity).
  exact (conj H (send_message_flood_raises _ _ _ H)).
Defined.

(** A home page of a logged-in user whose game-list container is missing. *)
Lemma parse_account_data_auth_marker_witness :
  let page := {| HomePage.user_link_name := Some (u "me");
                 HomePage.app_data := PyOk {| HomePage.app_locale := Some (u "ru");
                                              HomePage.app_user_id := Some 100;
                                              HomePage.app_csrf_token := Some (u "t0k3n") |};
                 HomePage.logout_link := Some (Some (u "https://funpay.com/account/logout"));
                 HomePage.badge_trade := None; HomePage.badge_balance := None;
                 HomePage.badge_orders := None; HomePage.game_lists := [] |} in
  let st := {| HomePage.attrs := ∅; HomePage.index := HomePage.empty_index |} in
  (forall e, HomePage.app_data page = PyRaise e -> e = JSONDecodeError \/ e = TypeError) /\
  (snd (HomePage.parse_account_data (fun _ => "RUB"%string) page st) =
     PyRaise UnauthorizedError <-> HomePage.user_link_name page = None) /\
  ((HomePage.game_lists page = [] \/ HomePage.game_lists page = [[]] \/
    exists t0 rest, HomePage.game_lists page = t0 :: [] :: rest) ->
   (forall ix, HomePage._setup_categories (HomePage.game_lists page) ix = (ix, PyOk tt)) /\
   HomePage.index (fst (HomePage.parse_account_data (fun _ => "RUB"%string) page st)) =
     HomePage.index st).
Proof.
  intros page st.
  assert (Ha : forall e, HomePage.app_data page = PyRaise e -> e = JSONDecodeError \/ e = TypeError)
    by (intros e He; vm_compute in He; discriminate).
  exact (conj Ha (parse_account_data_auth_marker _ _ _ Ha)).
Defined.

(* ------------------------------------------------------------------ *)
(** ** [str] and [int] on integers *)

Module IntStrFacts.
Import Parser HomePage ChatIds.

Lemma digits_pos_fold fuel : forall n acc, 0 <= n < 10 ^ Z.of_nat fuel ->
  fold_left (fun acc d => acc * 10 + (d - 48)) (digits_pos fuel n acc) 0 =
  fold_left (fun acc d => acc * 10 + (d - 48)) acc n.
Proof.
  induction fuel as [|f IH]; intros n acc Hn; cbn [digits_pos].
  - cbn in Hn. assert (n = 0) as -> by lia. reflexivity.
  - rewrite Nat2Z.inj_succ, Z.pow_succ_r in Hn by lia.
    destruct (n <? 10) eqn:E.
    + cbn. f_equal. lia.
    + apply Z.ltb_ge in E. rewrite IH.
      * cbn. f_equal. pose proof (Z.div_mod n 10). lia.
      * split; [apply Z.div_pos; lia|]. apply Z.div_lt_upper_bound; lia.
Qed.

Lemma digits_pos_digits fuel : forall n acc, 0 <= n ->
  Forall (fun c => is_digit c = true) acc ->
  Forall (fun c => is_digit c = true) (digits_pos fuel n acc).
Proof.
  induction fuel as [|f IH]; intros n acc Hn Hacc; cbn [digits_pos]; [exact Hacc|].
  destruct (n <? 10) eqn:E.
  - apply Z.ltb_lt in E. constructor; [|exact Hacc].
    unfold is_digit. apply andb_true_intro; split; apply Z.leb_le; lia.
  - apply Z.ltb_ge in E. apply IH; [apply Z.div_pos; lia|].
    constructor; [|exact Hacc].
    pose proof (Z.mod_pos_bound n 10).
    unfold is_digit. apply andb_true_intro; split; apply Z.leb_le; lia.
Qed.

Lemma digits_pos_nonempty fuel n acc :
  fuel <> O -> digits_pos fuel n acc <> [].
Proof.
  assert (G : forall f n acc, acc <> [] -> digits_pos f n acc <> []).
  { induction f as [|f IH]; intros n' acc' Ha; cbn [digits_pos]; [exact Ha|].
    destruct (n' <? 10); [discriminate|]. apply IH. discriminate. }
  destruct fuel as [|f]; [congruence|]. intros _. cbn [digits_pos].
  destruct (n <? 10); [discriminate|]. apply G. discriminate.
Qed.

Lemma fuel_bound n : 0 <= n -> n < 10 ^ Z.of_nat (Z.to_nat (Z.log2_up n + 1)).
Proof.
  intros Hn. pose proof (Z.log2_up_nonneg n).
  rewrite Z2Nat.id by lia.
  assert (n <= 2 ^ Z.log2_up n).
  { destruct (Z.le_gt_cases n 1) as [Hle|Hgt].
    - assert (n = 0 \/ n = 1) as [-> | ->] by lia; cbv; discriminate.
    - apply Z.log2_up_spec, Hgt. }
  assert (2 ^ Z.log2_up n <= 10 ^ Z.log2_up n) by (apply Z.pow_le_mono_l; lia).
  rewrite Z.pow_add_r by lia.
  assert (0 < 10 ^ Z.log2_up n) by (apply Z.pow_pos_nonneg; lia). lia.
Qed.

Lemma digit_not_space c : is_digit c = true -> is_space c = false.
Proof.
  unfold is_digit. intros H. apply andb_prop in H as [H1 H2].
  apply Z.leb_le in H1, H2.
  assert (c = 48 \/ c = 49 \/ c = 50 \/ c = 51 \/ c = 52 \/ c = 53 \/ c = 54 \/
          c = 55 \/ c = 56 \/ c = 57) as Hc by lia.
  repeat destruct Hc as [->|Hc]; try reflexivity. subst. reflexivity.
Qed.

Lemma lstrip_id s : Forall (fun c => is_space c = false) s -> lstrip s = s.
Proof. destruct s as [|c s]; [reflexivity|]. intros H. inversion H. cbn. now rewrite H2. Qed.

Lemma strip_id s : Forall (fun c => is_space c = false) s -> strip s = s.
Proof.
  intros H. unfold strip. rewrite (lstrip_id s H), lstrip_id, rev_involutive; [reflexivity|].
  apply Forall_rev, H.
Qed.

Lemma digits_not_space s :
  Forall (fun c => is_digit c = true) s -> Forall (fun c => is_space c = false) s.
Proof. intros H. eapply Forall_impl; [exact H|]. apply digit_not_space. Qed.

Lemma digits_val_digits s : s <> [] -> Forall (fun c => is_digit c = true) s ->
  digits_val s = PyOk (fold_left (fun acc d => acc * 10 + (d - 48)) s 0).
Proof.
  intros Hne H. unfold digits_val. destruct s as [|c s']; [congruence|].
  assert (E : forallb is_digit (c :: s') = true).
  { apply forallb_forall. intros x Hx. rewrite List.Forall_forall in H. auto. }
  rewrite E. reflexivity.
Qed.

Lemma str_of_nonneg n : 0 <= n ->
  let ds := digits_pos (Z.to_nat (Z.log2_up n + 1)) n [] in
  ds <> [] /\ Forall (fun c => is_digit c = true) ds /\
  fold_left (fun acc d => acc * 10 + (d - 48)) ds 0 = n.
Proof.
  intros Hn ds. pose proof (Z.log2_up_nonneg n). split; [|split].
  - apply digits_pos_nonempty. lia.
  - apply digits_pos_digits; [lia|constructor].
  - unfold ds. rewrite digits_pos_fold; [reflexivity|]. split; [lia|]. apply fuel_bound, Hn.
Qed.

Lemma str_of_int_nonneg n : 0 <= n ->
  str_of_int n <> [] /\ Forall (fun c => is_digit c = true) (str_of_int n) /\
  fold_left (fun acc d => acc * 10 + (d - 48)) (str_of_int n) 0 = n.
Proof.
  intros Hn. unfold str_of_int. replace (n <? 0) with false by (symmetry; apply Z.ltb_ge; lia).
  apply str_of_nonneg, Hn.
Qed.

Lemma py_int_digits s : s <> [] -> Forall (fun c => is_digit c = true) s ->
  py_int s = digits_val s.
Proof.
  intros Hne H. unfold py_int. rewrite strip_id by (apply digits_not_space, H).
  destruct s as [|c s']; [congruence|]. inversion H as [|? ? Hc]. subst.
  unfold is_digit in Hc. apply andb_prop in Hc as [H1 H2]. apply Z.leb_le in H1, H2.
  assert (c = 48 \/ c = 49 \/ c = 50 \/ c = 51 \/ c = 52 \/ c = 53 \/ c = 54 \/
          c = 55 \/ c = 56 \/ c = 57) as Hc by lia.
  repeat destruct Hc as [->|Hc]; try reflexivity. subst. reflexivity.
Qed.


Lemma str_of_int_neg n : n < 0 ->
  str_of_int n = 45 :: digits_pos (Z.to_nat (Z.log2_up (- n) + 1)) (- n) [].
Proof. intros Hn. unfold str_of_int. replace (n <? 0) with true by (symmetry; lia). reflexivity. Qed.

Lemma py_int_str_of_int n : py_int (str_of_int n) = PyOk n.
Proof.
  destruct (Z.lt_ge_cases n 0) as [Hn|Hn].
  - rewrite str_of_int_neg by exact Hn.
    destruct (str_of_nonneg (- n) ltac:(lia)) as (Hne & Hd & Hv).
    set (ds := digits_pos _ _ _) in *.
    unfold py_int. rewrite strip_id.
    + change (n' ← digits_val ds; mret (- n')) with (digits_val ds ≫= fun n' => mret (- n')).
      rewrite digits_val_digits, Hv by assumption. cbn. f_equal. lia.
    + constructor; [reflexivity|]. apply digits_not_space, Hd.
  - destruct (str_of_int_nonneg n Hn) as (Hne & Hd & Hv).
    rewrite py_int_digits, digits_val_digits, Hv by assumption. reflexivity.
Qed.


Lemma strip_prefix_app p r : strip_prefix p (p ++ r) = Some r.
Proof. induction p as [|c p IH]; cbn; [reflexivity|]. rewrite Z.eqb_refl. exact IH. Qed.

Lemma span_digits_app ds r :
  Forall (fun c => is_digit c = true) ds ->
  match r with [] => True | c :: _ => is_digit c = false end ->
  span_digits (ds ++ r) = (length ds, r).
Proof.
  intros Hd Hr. induction Hd as [|c ds Hc Hd IH]; cbn.
  - destruct r as [|c r]; cbn; [reflexivity|]. now rewrite Hr.
  - rewrite Hc, IH. reflexivity.
Qed.

Lemma split_on_app sep s t : Forall (fun c => c <> sep) s ->
  split_on sep (s ++ sep :: t) = s :: split_on sep t.
Proof.
  intros Hs. induction Hs as [|c s Hc Hs IH]; cbn.
  - rewrite Z.eqb_refl. reflexivity.
  - rewrite IH. replace (c =? sep) with false by (symmetry; apply Z.eqb_neq, Hc). reflexivity.
Qed.

Lemma split_on_none sep s : Forall (fun c => c <> sep) s -> split_on sep s = [s].
Proof.
  intros Hs. induction Hs as [|c s Hc Hs IH]; cbn; [reflexivity|].
  rewrite IH. replace (c =? sep) with false by (symmetry; apply Z.eqb_neq, Hc). reflexivity.
Qed.


Lemma private_chat_id_shape a b :
  private_chat_id a b =
    [117; 115; 101; 114; 115] ++ 45 :: str_of_int (fst (sorted2 a b)) ++
      45 :: str_of_int (snd (sorted2 a b)).
Proof. unfold private_chat_id. destruct (sorted2 a b) as [x y]. reflexivity. Qed.

Lemma sorted2_nonneg a b : 0 <= a -> 0 <= b ->
  0 <= fst (sorted2 a b) /\ 0 <= snd (sorted2 a b).
Proof. unfold sorted2. destruct (b <? a); cbn; lia. Qed.

End IntStrFacts.

(* ------------------------------------------------------------------ *)
(** ** [parse_chat_history] on private chat nodes *)

Module ChatHistoryFacts.
Import Types Parser HomePage ChatIds ChatHistory IntStrFacts.


End ChatHistoryFacts.

(* ------------------------------------------------------------------ *)
(** ** What pass 1 of [_parse_messages] never overwrites *)

Module CacheFacts.
Import Types Parser ParserFacts.

Lemma resolve_author_keeps chat iid c a mk c' :
  resolve_author chat iid c a mk = PyOk c' ->
  (forall k v, ids c !! k = Some (Some v) -> ids c' !! k = Some (Some v)) /\
  (truthy (interlocutor_username c) = true ->
   interlocutor_username c' = interlocutor_username c).
Proof.
  unfold resolve_author. intros H.
  destruct (is_none (ids_get c a) || is_none (badges c !! a)); cycle 1.
  { injection H as <-. auto. }
  destruct (author_div mk) as [ad|]; cycle 1.
  { injection H as <-. auto. }
  destruct (is_none (ids_get c a)) eqn:En; cycle 1.
  { injection H as <-. cbn. auto. }
  destruct (author_link ad) as [t|]; [|discriminate].
  assert (Ha : forall v, ids c !! a <> Some (Some v)).
  { intros v E. unfold ids_get in En. rewrite E in En. discriminate. }
  destruct (chat_id_private chat && bool_decide (Some a = iid)
            && negb (truthy (interlocutor_username c))) eqn:Eb.
  - injection H as <-. cbn. split.
    + intros k v Hk. assert (k <> a) by (intros ->; exact (Ha v Hk)).
      rewrite !lookup_insert_ne by congruence. exact Hk.
    + intros Ht. rewrite Ht in Eb. rewrite andb_false_r in Eb. discriminate.
  - injection H as <-. cbn. split; [|auto].
    intros k v Hk. assert (k <> a) by (intros ->; exact (Ha v Hk)).
    rewrite lookup_insert_ne by congruence. exact Hk.
Qed.

Lemma pass1_keeps gmt acc chat iid k : forall rs c c' ms,
  pass1 gmt acc chat iid k c rs = PyOk (c', ms) ->
  (forall a v, ids c !! a = Some (Some v) -> ids c' !! a = Some (Some v)) /\
  (truthy (interlocutor_username c) = true ->
   interlocutor_username c' = interlocutor_username c).
Proof.
  induction rs as [|r rs IH]; intros c c' ms H; cbn in H.
  - injection H as <- _. auto.
  - destruct (raw_id r <? k); [eapply IH; exact H|].
    destruct (resolve_author chat iid c (raw_author r) (raw_html r)) as [c1|] eqn:E1;
      cbn in H; [|discriminate].
    destruct (message_content acc chat (raw_author r) (raw_html r)) as [cnt|];
      cbn in H; [|discriminate].
    destruct (pass1 gmt acc chat iid k c1 rs) as [[c2 ms2]|] eqn:E3; cbn in H; [|discriminate].
    injection H as <- _.
    destruct (resolve_author_keeps _ _ _ _ _ _ E1) as [K1 U1].
    destruct (IH _ _ _ E3) as [K2 U2]. split.
    + auto.
    + intros Ht. rewrite U2, U1 by (try rewrite U1; assumption). reflexivity.
Qed.

Lemma finalize_author acc c m : author (finalize acc c m) = ids_get c (author_id m).
Proof. finalize_t. Qed.

End CacheFacts.

(* ------------------------------------------------------------------ *)
(** ** The category index that [_setup_categories] fills *)

Module IndexFacts.
Import HomePage Lookups.

Local Abbreviation cats_ok ix :=
  (forall k, get_category ix k = List.find (fun c => cat_id c =? k) (rev (categories ix))).
Local Abbreviation subs_ok ix :=
  (forall t k, get_subcategory ix t k =
     List.find (fun s => (sub_id s =? k) && bool_decide (sub_type s = t)) (rev (subcategories ix))).
Local Abbreviation rg_ok rg := (Forall (fun p : Z * Category => cat_id (snd p) = fst p) rg).

Lemma subs_ok_congr ix ix' :
  subcategories ix' = subcategories ix -> sorted_common ix' = sorted_common ix ->
  sorted_currency ix' = sorted_currency ix -> subs_ok ix -> subs_ok ix'.
Proof.
  intros E1 E2 E3 H t k. rewrite E1, <- H. unfold get_subcategory. rewrite E2, E3. reflexivity.
Qed.

Lemma cats_ok_congr ix ix' :
  categories ix' = categories ix -> sorted_categories ix' = sorted_categories ix ->
  cats_ok ix -> cats_ok ix'.
Proof. intros E1 E2 H k. rewrite E1, <- H. unfold get_category. rewrite E2. reflexivity. Qed.

Lemma publish_ok rg : forall ix, rg_ok rg -> cats_ok ix -> subs_ok ix ->
  cats_ok (publish rg ix) /\ subs_ok (publish rg ix).
Proof.
  induction rg as [|[gid c] rg IH]; intros ix Hrg Hc Hs; [split; assumption|].
  inversion Hrg as [|? ? Hgc Hrg']. subst. cbn in Hgc.
  unfold publish. cbn [fold_left]. fold (publish rg). apply IH; [exact Hrg'| |].
  - intros k. unfold get_category. cbn [sorted_categories categories].
    rewrite rev_unit. cbn [List.find]. rewrite Hgc.
    destruct (Z.eqb_spec gid k) as [->|Hne].
    + apply lookup_insert_eq.
    + rewrite lookup_insert_ne by exact Hne. apply Hc.
  - eapply subs_ok_congr; [reflexivity..|exact Hs].
Qed.

Lemma add_to_index_ok stype s ix : sub_type s = stype -> cats_ok ix -> subs_ok ix ->
  cats_ok (add_to_index stype s ix) /\ subs_ok (add_to_index stype s ix).
Proof.
  intros Ht Hc Hs. split.
  - eapply cats_ok_congr; [reflexivity..|exact Hc].
  - intros t k. cbn [subcategories add_to_index]. rewrite rev_unit. cbn [List.find].
    rewrite <- Hs. unfold get_subcategory. subst stype.
    destruct (sub_type s), t; cbn [sorted_common sorted_currency add_to_index];
      rewrite ?bool_decide_true, ?bool_decide_false by congruence;
      rewrite ?andb_true_r, ?andb_false_r; try reflexivity;
      (destruct (Z.eqb_spec (sub_id s) k) as [->|Hne];
       [apply lookup_insert_eq | apply lookup_insert_ne, Hne]).
Qed.

Lemma dict_get_ok k rg c : rg_ok rg -> dict_get k rg = Some c -> cat_id c = k.
Proof.
  intros Hrg. unfold dict_get.
  destruct (List.find (fun p => fst p =? k) rg) as [[k' c']|] eqn:E; [|discriminate].
  intros H. injection H as <-.
  apply find_some in E as [Hin Hk]. apply Z.eqb_eq in Hk. cbn in Hk. subst k'.
  rewrite List.Forall_forall in Hrg. exact (Hrg _ Hin).
Qed.

Lemma dict_set_ok k c rg : cat_id c = k -> rg_ok rg -> rg_ok (dict_set k c rg).
Proof.
  intros Hc Hrg. induction Hrg as [|[k' c'] rg Hp Hrg IH]; cbn.
  - constructor; [exact Hc|constructor].
  - destruct (k =? k'); constructor; auto.
Qed.

Lemma add_items_ok jgid items : forall rg pos ix,
  rg_ok rg -> cats_ok ix -> subs_ok ix ->
  cats_ok (fst (add_items jgid items rg pos ix)) /\
  subs_ok (fst (add_items jgid items rg pos ix)) /\
  (forall rg' pos', snd (add_items jgid items rg pos ix) = PyOk (rg', pos') -> rg_ok rg').
Proof.
  induction items as [|li items IH]; intros rg pos ix Hrg Hc Hs.
  - cbn. split; [|split]; try assumption. intros rg' pos' H. injection H as <- _. exact Hrg.
  - destruct li as [[name [link|]]|]; cycle 1; [cbn; split; [|split]; auto; discriminate..|].
    cbn [add_items]. unfold st_bind, st_lift.
    destruct (sid_of_link link) as [sid|e]; [|cbn; split; [|split]; auto; discriminate].
    destruct (dict_get jgid rg) as [cat|] eqn:Eg; [|cbn; split; [|split]; auto; discriminate].
    assert (Hcat : cat_id cat = jgid) by exact (dict_get_ok _ _ _ Hrg Eg).
    set (stype := if contains link (u "chips") then CURRENCY else COMMON).
    set (sobj := {| sub_id := sid; sub_name := name; sub_type := stype;
                    sub_category := jgid; sub_position := pos |}).
    destruct (add_to_index_ok stype sobj ix eq_refl Hc Hs) as [Hc' Hs'].
    apply IH; [|exact Hc'|exact Hs'].
    apply dict_set_ok; [exact Hcat|exact Hrg].
Qed.

Lemma add_lists_ok ls : forall rg pos ix,
  rg_ok rg -> cats_ok ix -> subs_ok ix ->
  cats_ok (fst (add_lists ls rg pos ix)) /\
  subs_ok (fst (add_lists ls rg pos ix)) /\
  (forall rg' pos', snd (add_lists ls rg pos ix) = PyOk (rg', pos') -> rg_ok rg').
Proof.
  induction ls as [|j ls IH]; intros rg pos ix Hrg Hc Hs.
  - cbn. split; [|split]; try assumption. intros rg' pos' H. injection H as <- _. exact Hrg.
  - cbn [add_lists]. destruct (ul_data_id j) as [sj|]; [|cbn; split; [|split]; auto; discriminate].
    unfold st_bind at 1, st_lift.
    destruct (py_int sj) as [jgid|e]; [|cbn; split; [|split]; auto; discriminate].
    unfold st_bind. cbv beta.
    destruct (add_items_ok jgid (ul_items j) rg pos ix Hrg Hc Hs) as (Hc1 & Hs1 & Hr1).
    destruct (add_items jgid (ul_items j) rg pos ix) as [ix1 [[rg1 pos1]|e]] eqn:E.
    + cbn [fst snd] in Hc1, Hs1, Hr1. cbv beta iota.
      apply IH; [exact (Hr1 _ _ eq_refl)|exact Hc1|exact Hs1].
    + cbn [fst snd] in Hc1, Hs1 |- *. split; [|split]; auto; discriminate.
Qed.

Lemma add_regional_ok gname btns : forall rg gpos rg' gpos',
  rg_ok rg -> add_regional gname btns rg gpos = PyOk (rg', gpos') -> rg_ok rg'.
Proof.
  induction btns as [|[[did|] btext] btns IH]; intros rg gpos rg' gpos' Hrg H; cbn in H.
  - injection H as <- _. exact Hrg.
  - destruct (py_int did) as [rid|e]; cbn in H; [|discriminate].
    eapply IH; [|exact H]. apply dict_set_ok; [reflexivity|exact Hrg].
  - discriminate.
Qed.

Lemma setup_games_ok games : forall gpos spos ix, cats_ok ix -> subs_ok ix ->
  cats_ok (fst (setup_games games gpos spos ix)) /\
  subs_ok (fst (setup_games games gpos spos ix)).
Proof.
  induction games as [|g games IH]; intros gpos spos ix Hc Hs; [split; assumption|].
  cbn [setup_games].
  destruct (gi_title g) as [[did|]|]; [|split; assumption..].
  unfold st_bind, st_lift. cbv beta.
  destruct (py_int did) as [gid|e]; [|split; assumption].
  destruct (gi_a_text g) as [gname|]; [|split; assumption].
  destruct (gi_group g) as [btns|].
  1: match goal with |- context [add_regional ?a ?b ?c ?d] =>
       destruct (add_regional a b c d) as [[rg1 gpos1]|e] eqn:E1 end; [|split; assumption].
  1: assert (Hrg1 : rg_ok rg1) by
       (refine (add_regional_ok _ _ _ _ _ _ _ E1); constructor; [reflexivity|constructor]).
  1: cbv beta iota; revert Hrg1.
  2: cbn [mret pyresult_ret]; cbv beta iota;
     match goal with |- context [add_lists _ ?r _ _] =>
       assert (Hrg1 : rg_ok r) by (constructor; [reflexivity|constructor]) end;
     revert Hrg1.
  all: match goal with |- context [add_lists ?ls ?r ?p ?s] =>
         intros Hrg1;
         destruct (add_lists_ok ls r p s Hrg1 Hc Hs) as (Hc2 & Hs2 & Hr2);
         destruct (add_lists ls r p s) as [ix2 [[rg2 spos2]|e]] end.
  all: cbn [fst snd] in *; cbv beta iota; try (split; assumption).
  all: destruct (publish_ok rg2 ix2 (Hr2 _ _ eq_refl) Hc2 Hs2) as [Hc3 Hs3];
       apply IH; assumption.
Qed.

Lemma setup_categories_ok tables ix : cats_ok ix -> subs_ok ix ->
  cats_ok (fst (_setup_categories tables ix)) /\ subs_ok (fst (_setup_categories tables ix)).
Proof.
  intros Hc Hs. unfold _setup_categories.
  destruct tables as [|t0 rest]; [split; assumption|].
  destruct (match rest with t1 :: _ => t1 | [] => t0 end); [split; assumption|].
  apply setup_games_ok; assumption.
Qed.

End IndexFacts.

(* ------------------------------------------------------------------ *)
(** ** [add_chats] *)

Module AddChatsFacts.
Import Lookups.

Lemma find_app {A} (f : A -> bool) l1 l2 :
  List.find f (l1 ++ l2) = match List.find f l1 with Some x => Some x | None => List.find f l2 end.
Proof. induction l1 as [|x l1 IH]; cbn; [reflexivity|]. destruct (f x); [reflexivity|exact IH]. Qed.

End AddChatsFacts.

(* ------------------------------------------------------------------ *)
(** ** [subcategory_position] in [_setup_categories] *)

Module PositionFacts.
Import HomePage.

Local Abbreviation pos_ok new pos :=
  (forall i s, nth_error new i = Some s -> sub_position s = pos + Z.of_nat i).

Lemma pos_ok_app new1 new2 pos :
  pos_ok new1 pos -> pos_ok new2 (pos + Z.of_nat (length new1)) -> pos_ok (new1 ++ new2) pos.
Proof.
  intros H1 H2 i s Hi. destruct (Nat.lt_ge_cases i (length new1)) as [Hlt|Hge].
  - rewrite nth_error_app1 in Hi by exact Hlt. exact (H1 _ _ Hi).
  - rewrite nth_error_app2 in Hi by exact Hge. rewrite (H2 _ _ Hi). lia.
Qed.

Lemma publish_subs rg : forall ix, subcategories (publish rg ix) = subcategories ix.
Proof.
  induction rg as [|[gid c] rg IH]; intros ix; [reflexivity|].
  unfold publish. cbn [fold_left]. fold (publish rg). rewrite IH. reflexivity.
Qed.

Lemma add_items_pos jgid items : forall rg pos ix,
  exists new, subcategories (fst (add_items jgid items rg pos ix)) = subcategories ix ++ new /\
    pos_ok new pos /\
    (forall rg' pos', snd (add_items jgid items rg pos ix) = PyOk (rg', pos') ->
                      pos' = pos + Z.of_nat (length new)).
Proof.
  induction items as [|li items IH]; intros rg pos ix.
  - exists []. rewrite app_nil_r. split; [reflexivity|split].
    + intros [|i] s Hi; discriminate.
    + intros rg' pos' H. cbn in H. injection H as _ <-. cbn [length Z.of_nat]. lia.
  - assert (Triv : exists new, subcategories ix = subcategories ix ++ new /\ pos_ok new pos /\
                     (forall rg' pos', @PyRaise (list (Z * Category) * Z) KeyError = PyOk (rg', pos') \/
                                       @PyRaise (list (Z * Category) * Z) AttributeError = PyOk (rg', pos') ->
                                       pos' = pos + Z.of_nat (length new))).
    { exists []. rewrite app_nil_r. split; [reflexivity|split].
      - intros [|i] s Hi; discriminate.
      - intros rg' pos' [H|H]; discriminate. }
    destruct li as [[name [link|]]|]; cycle 1.
    { destruct Triv as (new & E & P & R). exists new. split; [exact E|split; [exact P|]].
      intros rg' pos' H. apply (R rg'). left. exact H. }
    { destruct Triv as (new & E & P & R). exists new. split; [exact E|split; [exact P|]].
      intros rg' pos' H. apply (R rg'). right. exact H. }
    cbn [add_items]. unfold st_bind, st_lift. cbv beta.
    destruct (sid_of_link link) as [sid|e]; cycle 1.
    { exists []. rewrite app_nil_r. split; [reflexivity|split].
      - intros [|i] s Hi; discriminate.
      - intros rg' pos' H; discriminate. }
    cbv iota. destruct (dict_get jgid rg) as [cat|]; cycle 1.
    { exists []. rewrite app_nil_r. split; [reflexivity|split].
      - intros [|i] s Hi; discriminate.
      - intros rg' pos' H; discriminate. }
    match goal with |- context [add_items jgid items ?rg1 (pos + 1) (add_to_index ?st ?so ix)] =>
      destruct (IH rg1 (pos + 1) (add_to_index st so ix)) as (new & E & P & R);
      exists (so :: new) end.
    split; [|split].
    + rewrite E. cbn [subcategories add_to_index]. rewrite <- app_assoc. reflexivity.
    + intros [|i] s Hi.
      * cbn in Hi. injection Hi as <-. cbn. lia.
      * cbn in Hi. rewrite (P _ _ Hi). lia.
    + intros rg' pos' H. rewrite (R _ _ H). cbn [length]. lia.
Qed.

Lemma add_lists_pos ls : forall rg pos ix,
  exists new, subcategories (fst (add_lists ls rg pos ix)) = subcategories ix ++ new /\
    pos_ok new pos /\
    (forall rg' pos', snd (add_lists ls rg pos ix) = PyOk (rg', pos') ->
                      pos' = pos + Z.of_nat (length new)).
Proof.
  induction ls as [|j ls IH]; intros rg pos ix.
  - exists []. rewrite app_nil_r. split; [reflexivity|split].
    + intros [|i] s Hi; discriminate.
    + intros rg' pos' H. cbn in H. injection H as _ <-. cbn [length Z.of_nat]. lia.
  - cbn [add_lists]. destruct (ul_data_id j) as [sj|]; cycle 1.
    { exists []. rewrite app_nil_r. split; [reflexivity|split].
      - intros [|i] s Hi; discriminate.
      - intros rg' pos' H; discriminate. }
    unfold st_bind, st_lift. cbv beta.
    destruct (py_int sj) as [jgid|e]; cycle 1.
    { exists []. rewrite app_nil_r. split; [reflexivity|split].
      - intros [|i] s Hi; discriminate.
      - intros rg' pos' H; discriminate. }
    cbv iota.
    destruct (add_items_pos jgid (ul_items j) rg pos ix) as (new1 & E1 & P1 & R1).
    destruct (add_items jgid (ul_items j) rg pos ix) as [ix1 [[rg1 pos1]|e]].
    + cbn [fst snd] in E1, R1. cbv beta iota.
      rewrite (R1 _ _ eq_refl).
      destruct (IH rg1 (pos + Z.of_nat (length new1)) ix1) as (new2 & E2 & P2 & R2).
      exists (new1 ++ new2). split; [|split].
      * rewrite E2, E1, app_assoc. reflexivity.
      * apply pos_ok_app; assumption.
      * intros rg' pos' H. rewrite (R2 _ _ H), length_app. lia.
    + cbn [fst snd] in E1 |- *. exists new1. split; [exact E1|split; [exact P1|]].
      intros rg' pos' H; discriminate.
Qed.

Lemma setup_games_pos games : forall gpos spos ix,
  exists new, subcategories (fst (setup_games games gpos spos ix)) = subcategories ix ++ new /\
    pos_ok new spos.
Proof.
  induction games as [|g games IH]; intros gpos spos ix.
  { exists []. rewrite app_nil_r. split; [reflexivity|]. intros [|i] s Hi; discriminate. }
  assert (Triv : exists new, subcategories ix = subcategories ix ++ new /\ pos_ok new spos).
  { exists []. rewrite app_nil_r. split; [reflexivity|]. intros [|i] s Hi; discriminate. }
  cbn [setup_games].
  destruct (gi_title g) as [[did|]|]; [|exact Triv..].
  unfold st_bind, st_lift. cbv beta.
  destruct (py_int did) as [gid|e]; [|exact Triv].
  destruct (gi_a_text g) as [gname|]; [|exact Triv].
  match goal with |- context [match ?R with PyOk _ => _ | PyRaise _ => _ end] =>
    destruct R as [[rg1 gpos1]|e] end; [|exact Triv].
  cbv beta iota.
  destruct (add_lists_pos (gi_lists g) rg1 spos ix) as (new1 & E1 & P1 & R1).
  destruct (add_lists (gi_lists g) rg1 spos ix) as [ix1 [[rg2 spos2]|e]].
  - cbn [fst snd] in E1, R1. cbv beta iota. rewrite (R1 _ _ eq_refl).
    destruct (IH gpos1 (spos + Z.of_nat (length new1)) (publish rg2 ix1)) as (new2 & E2 & P2).
    exists (new1 ++ new2). split.
    + rewrite E2, publish_subs, E1, app_assoc. reflexivity.
    + apply pos_ok_app; assumption.
  - cbn [fst]. exists new1. split; assumption.
Qed.

End PositionFacts.

(* ------------------------------------------------------------------ *)
(** ** [split("/")] and the fresh account *)

Module SplitFacts.
Import Parser HomePage IntStrFacts.

Lemma split_on_nonempty sep x : split_on sep x <> [].
Proof.
  destruct x as [|c x]; cbn; [discriminate|].
  destruct (c =? sep); [discriminate|]. destruct (split_on sep x); discriminate.
Qed.

Lemma split_on_app_gen sep x t :
  split_on sep (x ++ sep :: t) = split_on sep x ++ split_on sep t.
Proof.
  induction x as [|c x IH]; cbn.
  - rewrite Z.eqb_refl. reflexivity.
  - rewrite IH. destruct (c =? sep); [reflexivity|].
    destruct (split_on sep x) as [|p ps] eqn:E; [exfalso; exact (split_on_nonempty sep x E)|].
    reflexivity.
Qed.

Lemma str_of_int_no_slash n : Forall (fun c => c <> 47) (str_of_int n).
Proof.
  assert (G : forall s, Forall (fun c => is_digit c = true) s -> Forall (fun c => c <> 47) s).
  { intros s H. eapply Forall_impl; [exact H|]. unfold is_digit. intros c Hc.
    apply andb_prop in Hc as [H1 _]. apply Z.leb_le in H1. lia. }
  destruct (Z.lt_ge_cases n 0) as [Hn|Hn].
  - rewrite str_of_int_neg by exact Hn. constructor; [discriminate|].
    apply G, digits_pos_digits; [lia|constructor].
  - apply G, str_of_int_nonneg, Hn.
Qed.

End SplitFacts.

Module FreshAccountFacts.
Import AccountObj HomePage.

Lemma fresh_no_mangled_locale golden_key user_agent locale d :
  async_account_init golden_key user_agent locale = PyOk d ->
  d !! mangle "AccountMixin" "__locale" = None.
Proof.
  intros H.
  assert (E : exists d0, async_account_init golden_key user_agent locale = PyOk d0 /\
                         d0 !! mangle "AccountMixin" "__locale" = None).
  { eexists. split; [reflexivity|]. vm_compute. reflexivity. }
  destruct E as (d0 & E1 & E2). rewrite H in E1. injection E1 as ->. exact E2.
Qed.

Lemma locale_setter_raises d v :
  d !! mangle "AccountMixin" "__locale" = None -> setattr d "locale" v = PyRaise AttributeError.
Proof.
  intros H. change (setattr d "locale" v) with (locale_setter d v).
  unfold locale_setter, getattr_plain. rewrite H. reflexivity.
Qed.

End FreshAccountFacts.

(* ------------------------------------------------------------------ *)
(** ** [rsplit(" ", 1)] and the private chat id pattern *)

Module SplitJoinFacts.
Import Parser HomePage IntStrFacts SplitFacts.

Lemma rsplit_join sep x :
  concat (List.map (fun p => p ++ [sep]) (removelast (split_on sep x)))
    ++ List.last (split_on sep x) [] = x.
Proof.
  induction x as [|c x IH]; [reflexivity|]. cbn [split_on].
  pose proof (split_on_nonempty sep x) as Hne.
  destruct (c =? sep) eqn:Ec.
  - apply Z.eqb_eq in Ec. subst c.
    destruct (split_on sep x) as [|p ps] eqn:E; [congruence|].
    change (removelast ([] :: p :: ps)) with ([] :: removelast (p :: ps)).
    change (List.last ([] :: p :: ps) []) with (List.last (p :: ps) []).
    cbn [List.map concat app]. rewrite <- IH. reflexivity.
  - destruct (split_on sep x) as [|p ps] eqn:E; [congruence|].
    destruct ps as [|q qs].
    + cbn in IH |- *. rewrite IH. reflexivity.
    + change (removelast ((c :: p) :: q :: qs)) with ((c :: p) :: removelast (q :: qs)).
      change (removelast (p :: q :: qs)) with (p :: removelast (q :: qs)) in IH.
      change (List.last ((c :: p) :: q :: qs) []) with (List.last (q :: qs) []).
      change (List.last (p :: q :: qs) []) with (List.last (q :: qs) []) in IH.
      cbn [List.map concat] in IH |- *. rewrite <- IH. cbn. rewrite <- !app_assoc. reflexivity.
Qed.



End SplitJoinFacts.

Module RegexFacts.
Import Parser IntStrFacts SplitJoinFacts.


End RegexFacts.

(* ------------------------------------------------------------------ *)
(** ** Further properties of the parsers and the account helpers *)

(** [int(str(n)) == n] for every int [n]: the digits [str] writes (with a
    leading [-] for a negative [n]) are read back by [int]. *)
Theorem int_str_round_trip n : HomePage.py_int (str_of_int n) = PyOk n.
Proof. apply IntStrFacts.py_int_str_of_int. Qed.

(** The chat id [f"users-{id1}-{id2}"] that [parse_order] and [parse_sales]
    build for two non-negative user ids is recognised as a private chat by
    [chat_id_private]. *)
Theorem private_chat_id_is_private a b : 0 <= a -> 0 <= b ->
  chat_id_private (Types.ChatStr (ChatIds.private_chat_id a b)) = true.
Proof.
  intros Ha Hb. rewrite IntStrFacts.private_chat_id_shape.
  destruct (IntStrFacts.sorted2_nonneg a b Ha Hb) as [H1 H2].
  destruct (IntStrFacts.str_of_int_nonneg _ H1) as (Ne1 & D1 & _).
  destruct (IntStrFacts.str_of_int_nonneg _ H2) as (Ne2 & D2 & _).
  set (s1 := str_of_int (fst (ChatIds.sorted2 a b))) in *.
  set (s2 := str_of_int (snd (ChatIds.sorted2 a b))) in *.
  unfold chat_id_private, private_re_fullmatch.
  change (u "users-") with [117; 115; 101; 114; 115; 45].
  replace ([117; 115; 101; 114; 115] ++ 45 :: s1 ++ 45 :: s2)
    with ([117; 115; 101; 114; 115; 45] ++ s1 ++ 45 :: s2) by reflexivity.
  rewrite IntStrFacts.strip_prefix_app.
  rewrite (IntStrFacts.span_digits_app s1 (45 :: s2) D1 eq_refl).
  cbv beta iota.
  assert (E2 : span_digits s2 = (length s2, [])).
  { rewrite <- (app_nil_r s2) at 1. exact (IntStrFacts.span_digits_app s2 [] D2 I). }
  rewrite E2.
  destruct s1 as [|c1 s1']; [congruence|]. destruct s2 as [|c2 s2']; [congruence|].
  reflexivity.
Qed.


(** In the result of [_parse_messages], a message whose author id already
    had a name in the [ids] dict before the loop (the account's own
    username, ["FunPay"] for id 0, the given interlocutor name) carries that
    name: pass 1 only fills ids whose name is still [None]. *)
Theorem parse_messages_known_author gmt acc chat iid iu k rs ms a v :
  _parse_messages gmt acc chat iid iu k rs = PyOk ms ->
  ids (init_cache acc iid iu) !! a = Some (Some v) ->
  forall m, In m ms -> Types.author_id m = a -> Types.author m = Some v.
Proof.
  intros H Ha m Hm Hid.
  destruct (parse_shape _ _ _ _ _ _ _ _ H) as (c & pms & H1 & ->).
  apply in_map_iff in Hm as (pm & <- & _).
  rewrite finalize_author_id in Hid. rewrite CacheFacts.finalize_author, Hid.
  destruct (CacheFacts.pass1_keeps _ _ _ _ _ _ _ _ _ H1) as [K _].
  unfold ids_get. rewrite (K _ _ Ha). reflexivity.
Qed.

(** When the caller of [_parse_messages] passes a non-empty
    [interlocutor_username], pass 1 never replaces it, so every returned
    message has it as its [chat_name]. *)
Theorem parse_messages_given_chat_name gmt acc chat iid iu k rs ms :
  _parse_messages gmt acc chat iid iu k rs = PyOk ms -> truthy iu = true ->
  forall m, In m ms -> Types.chat_name m = iu.
Proof.
  intros H Hiu m Hm.
  destruct (parse_shape _ _ _ _ _ _ _ _ H) as (c & pms & H1 & ->).
  apply in_map_iff in Hm as (pm & <- & _).
  rewrite finalize_chat_name.
  destruct (CacheFacts.pass1_keeps _ _ _ _ _ _ _ _ _ H1) as [_ U].
  exact (U Hiu).
Qed.

(** After [_setup_categories], whether it finishes or raises part-way, the
    getters agree with the lists, provided they did before (as for the
    empty index of a new account): [get_category(k)] is the last category
    with id [k] appended to [categories], and [get_subcategory(t, k)] the
    last subcategory of type [t] with id [k] appended to [subcategories]. *)
Theorem setup_categories_getters_consistent tables ix :
  (forall k, Lookups.get_category ix k =
     List.find (fun c => HomePage.cat_id c =? k) (rev (HomePage.categories ix))) ->
  (forall t k, Lookups.get_subcategory ix t k =
     List.find (fun s => (HomePage.sub_id s =? k) && bool_decide (HomePage.sub_type s = t))
       (rev (HomePage.subcategories ix))) ->
  let ix' := fst (HomePage._setup_categories tables ix) in
  (forall k, Lookups.get_category ix' k =
     List.find (fun c => HomePage.cat_id c =? k) (rev (HomePage.categories ix'))) /\
  (forall t k, Lookups.get_subcategory ix' t k =
     List.find (fun s => (HomePage.sub_id s =? k) && bool_decide (HomePage.sub_type s = t))
       (rev (HomePage.subcategories ix'))).
Proof. intros Hc Hs. exact (IndexFacts.setup_categories_ok tables ix Hc Hs). Qed.

(** [add_chats(chats)]: afterwards the saved chat under an id is the last
    chat of the list with that id, and the saved chats of the other ids are
    those from before. *)
Theorem add_chats_lookup {C} (cid : C -> Z) saved chats k :
  Lookups.add_chats C cid saved chats !! k =
    match List.find (fun c => cid c =? k) (rev chats) with
    | Some c => Some c
    | None => saved !! k
    end.
Proof.
  revert saved. induction chats as [|i chats IH]; intros saved; [reflexivity|].
  cbn [Lookups.add_chats rev]. rewrite IH, AddChatsFacts.find_app. cbn [List.find].
  destruct (List.find (fun c => cid c =? k) (rev chats)); [reflexivity|].
  destruct (Z.eqb_spec (cid i) k) as [<-|Hne].
  - apply lookup_insert_eq.
  - apply lookup_insert_ne, Hne.
Qed.

(** The content [send_message] posts for a non-empty text without an image
    is read back by the parser as that text with [by_bot] set, whoever the
    author, when [bot_character] is a single character. *)
Theorem sent_text_marker_round_trip acc a c t :
  t <> [] -> acc_bot_character acc = PyOk [c] ->
  (Markers.request_content acc (Some t) None ≫= strip_bot_marker acc a) = PyOk (t, true).
Proof.
  intros Ht Hbc. destruct t as [|x t]; [congruence|].
  unfold Markers.request_content. rewrite Hbc. cbn [mbind pyresult_bind mret pyresult_ret].
  unfold strip_bot_marker. rewrite Hbc. cbn [mbind pyresult_bind app].
  cbn [startswith]. rewrite Z.eqb_refl. reflexivity.
Qed.

(** On the account's own messages the marker check of [_parse_messages]
    and that of [parse_chats] give the same text, raise the same way, and
    [by_bot] of the first is [last_by_bot or last_by_vertex] of the second. *)
Theorem own_marker_parse_chats_agrees acc t :
  strip_bot_marker acc (acc_id acc) t =
    (r ← Markers.shortcut_marker acc t; let '(t', bb, bv) := r in mret (t', bb || bv)).
Proof.
  unfold strip_bot_marker, Markers.shortcut_marker.
  destruct (acc_bot_character acc) as [bc|e]; cbn; [|reflexivity].
  destruct (startswith t bc); [reflexivity|].
  destruct (acc_old_bot_character acc) as [obc|e]; cbn; [|reflexivity].
  rewrite Z.eqb_refl, andb_true_r. destruct (startswith t obc); reflexivity.
Qed.

(** The runner answer of [send_message] changes at most one of the two
    flood timestamps, only to the current time, and leaves both alone when
    the message goes through. *)
Theorem send_message_response_frame st now status_code response :
  let '(st', r) := SendMessage.send_message_response st now status_code response in
  (r = PyOk tt -> st' = st) /\
  (SendMessage.last_flood_err_time st' = SendMessage.last_flood_err_time st \/
   SendMessage.last_flood_err_time st' = now) /\
  (SendMessage.last_multiuser_flood_err_time st' = SendMessage.last_multiuser_flood_err_time st \/
   SendMessage.last_multiuser_flood_err_time st' = now) /\
  (SendMessage.last_flood_err_time st' = SendMessage.last_flood_err_time st \/
   SendMessage.last_multiuser_flood_err_time st' = SendMessage.last_multiuser_flood_err_time st).
Proof.
  unfold SendMessage.send_message_response.
  destruct (negb (status_code =? 200)), response as [[err|]|];
    try destruct (str_in err SendMessage.flood_phrases);
    try destruct (str_in err SendMessage.multiuser_flood_phrases);
    cbn; refine (conj _ (conj _ (conj _ _)));
    first [ intros; reflexivity | discriminate | left; reflexivity | right; reflexivity ].
Qed.

(** The chat of users 100 and 42. *)
Lemma private_chat_id_is_private_witness :
  0 <= 100 /\ 0 <= 42 /\ chat_id_private (Types.ChatStr (ChatIds.private_chat_id 100 42)) = true.
Proof.
  assert (H1 : 0 <= 100) by lia. assert (H2 : 0 <= 42) by lia.
  exact (conj H1 (conj H2 (private_chat_id_is_private 100 42 H1 H2))).
Defined.


(** The sample batch: the FunPay notice (author id 0) is signed ["FunPay"]. *)
Lemma parse_messages_known_author_witness :
  _parse_messages Samples.gmt0 Samples.acc0 Samples.chat0 (Some 42) None 4 Samples.rs0 =
    PyOk Samples.ms0 /\
  ids (init_cache Samples.acc0 (Some 42) None) !! 0 = Some (Some (u "FunPay")) /\
  (forall m, In m Samples.ms0 -> Types.author_id m = 0 -> Types.author m = Some (u "FunPay")).
Proof.
  assert (H : _parse_messages Samples.gmt0 Samples.acc0 Samples.chat0 (Some 42) None 4
                Samples.rs0 = PyOk Samples.ms0) by (vm_compute; reflexivity).
  assert (H1 : ids (init_cache Samples.acc0 (Some 42) None) !! 0 = Some (Some (u "FunPay")))
    by (vm_compute; reflexivity).
  exact (conj H (conj H1 (parse_messages_known_author _ _ _ _ _ _ _ _ _ _ H H1))).
Defined.

(** The sample batch with the interlocutor's name given by the caller. *)
Lemma parse_messages_given_chat_name_witness :
  _parse_messages Samples.gmt0 Samples.acc0 Samples.chat0 (Some 42) (Some (u "Ivan")) 4
    Samples.rs0 = PyOk Samples.ms_named /\
  truthy (Some (u "Ivan")) = true /\
  (forall m, In m Samples.ms_named -> Types.chat_name m = Some (u "Ivan")).
Proof.
  assert (H : _parse_messages Samples.gmt0 Samples.acc0 Samples.chat0 (Some 42)
                (Some (u "Ivan")) 4 Samples.rs0 = PyOk Samples.ms_named)
    by (vm_compute; reflexivity).
  assert (H1 : truthy (Some (u "Ivan")) = true) by reflexivity.
  exact (conj H (conj H1 (parse_messages_given_chat_name _ _ _ _ _ _ _ _ H H1))).
Defined.

(** The empty index of a new account, filled from one game item with a
    regional variant and two subcategory links. *)
Lemma setup_categories_getters_consistent_witness :
  let tables := [[{| HomePage.gi_title := Some (Some (u "41"));
                     HomePage.gi_a_text := Some (u "Game");
                     HomePage.gi_group := Some [(Some (u "42"), u "EU")];
                     HomePage.gi_lists :=
                       [{| HomePage.ul_data_id := Some (u "41");
                           HomePage.ul_items :=
                             [Some (u "Gold", Some (u "https://funpay.com/chips/7/"));
                              Some (u "Items", Some (u "https://funpay.com/lots/8/"))] |}] |}]] in
  let ix := HomePage.empty_index in
  (forall k, Lookups.get_category ix k =
     List.find (fun c => HomePage.cat_id c =? k) (rev (HomePage.categories ix))) /\
  (forall t k, Lookups.get_subcategory ix t k =
     List.find (fun s => (HomePage.sub_id s =? k) && bool_decide (HomePage.sub_type s = t))
       (rev (HomePage.subcategories ix))) /\
  let ix' := fst (HomePage._setup_categories tables ix) in
  (forall k, Lookups.get_category ix' k =
     List.find (fun c => HomePage.cat_id c =? k) (rev (HomePage.categories ix'))) /\
  (forall t k, Lookups.get_subcategory ix' t k =
     List.find (fun s => (HomePage.sub_id s =? k) && bool_decide (HomePage.sub_type s = t))
       (rev (HomePage.subcategories ix'))).
Proof.
  intros tables ix.
  assert (H1 : forall k, Lookups.get_category ix k =
     List.find (fun c => HomePage.cat_id c =? k) (rev (HomePage.categories ix)))
    by (intros k; reflexivity).
  assert (H2 : forall t k, Lookups.get_subcategory ix t k =
     List.find (fun s => (HomePage.sub_id s =? k) && bool_decide (HomePage.sub_type s = t))
       (rev (HomePage.subcategories ix)))
    by (intros [|] k; reflexivity).
  exact (conj H1 (conj H2 (setup_categories_getters_consistent tables ix H1 H2))).
Defined.

(** The text [hi] sent from the sample account, whose marker is U+2061. *)
Lemma sent_text_marker_round_trip_witness :
  u "hi" <> [] /\ acc_bot_character Samples.acc0 = PyOk [8289] /\
  (Markers.request_content Samples.acc0 (Some (u "hi")) None ≫=
     strip_bot_marker Samples.acc0 42) = PyOk (u "hi", true).
Proof.
  assert (H1 : u "hi" <> []) by discriminate.
  assert (H2 : acc_bot_character Samples.acc0 = PyOk [8289]) by reflexivity.
  exact (conj H1 (conj H2 (sent_text_marker_round_trip _ _ _ _ H1 H2))).
Defined.

(** [int(link.split("/")[-2])] reads back the id [n] of a link that ends in
    [f"/{n}/"], whatever comes before. *)
Theorem sid_of_link_round_trip prefix n :
  HomePage.sid_of_link (prefix ++ 47 :: str_of_int n ++ [47]) = PyOk n.
Proof.
  unfold HomePage.sid_of_link. rewrite SplitFacts.split_on_app_gen.
  rewrite (IntStrFacts.split_on_app 47 (str_of_int n) [] (SplitFacts.str_of_int_no_slash n)).
  rewrite rev_app_distr. cbn [rev app]. apply IntStrFacts.py_int_str_of_int.
Qed.

(** [_setup_categories] numbers the subcategories it appends 0, 1, 2, ...
    in the order it appends them, also when it raises part-way. *)
Theorem setup_categories_subcategory_positions tables ix i s :
  nth_error (HomePage.subcategories (fst (HomePage._setup_categories tables ix)))
    (length (HomePage.subcategories ix) + i) = Some s ->
  HomePage.sub_position s = Z.of_nat i.
Proof.
  intros H.
  assert (G : exists new, HomePage.subcategories (fst (HomePage._setup_categories tables ix)) =
                HomePage.subcategories ix ++ new /\
              (forall j s', nth_error new j = Some s' -> HomePage.sub_position s' = 0 + Z.of_nat j)).
  { unfold HomePage._setup_categories.
    destruct tables as [|t0 rest].
    { exists []. rewrite app_nil_r. split; [reflexivity|]. intros [|j] s' Hj; discriminate. }
    destruct (match rest with t1 :: _ => t1 | [] => t0 end).
    { exists []. rewrite app_nil_r. split; [reflexivity|]. intros [|j] s' Hj; discriminate. }
    apply PositionFacts.setup_games_pos. }
  destruct G as (new & E & P). rewrite E, nth_error_app2 in H by lia.
  replace (length (HomePage.subcategories ix) + i - length (HomePage.subcategories ix))%nat
    with i in H by lia.
  rewrite (P _ _ H). lia.
Qed.

(** On a new [AsyncAccount] the [locale] property can be neither read nor
    assigned (its getter and setter use the name-mangled attribute, which
    [__init__] never sets), so [parse_account_data] on a logged-in page with
    readable app data raises [AttributeError] at [account.locale = ...],
    after storing [username] and without touching the category index. *)
Theorem parse_account_data_fresh_account parse_currency golden_key user_agent locale d page
    uname ad ix :
  AccountObj.async_account_init golden_key user_agent locale = PyOk d ->
  HomePage.user_link_name page = Some uname -> HomePage.app_data page = PyOk ad ->
  AccountObj.getattr d "locale" = PyRaise AttributeError /\
  (forall v, AccountObj.setattr d "locale" v = PyRaise AttributeError) /\
  HomePage.parse_account_data parse_currency page {| HomePage.attrs := d; HomePage.index := ix |} =
    ({| HomePage.attrs := <["username"%string := AccountObj.VStr uname]> d;
        HomePage.index := ix |}, PyRaise AttributeError).
Proof.
  intros Hd Hu Ha.
  pose proof (FreshAccountFacts.fresh_no_mangled_locale _ _ _ _ Hd) as Hl.
  split; [|split].
  - change (AccountObj.getattr d "locale")
      with (AccountObj.getattr_plain d (AccountObj.mangle "AccountMixin" "__locale")).
    unfold AccountObj.getattr_plain. rewrite Hl. reflexivity.
  - intros v. apply FreshAccountFacts.locale_setter_raises, Hl.
  - unfold HomePage.parse_account_data. rewrite Hu.
    unfold HomePage.st_bind, HomePage.st_lift, HomePage.acc_setattr. cbv beta.
    cbn [HomePage.attrs HomePage.index].
    assert (Eu : AccountObj.setattr d "username" (AccountObj.VStr uname) =
                 PyOk (<["username"%string := AccountObj.VStr uname]> d)) by reflexivity.
    rewrite Eu. cbv beta iota. cbn [HomePage.attrs HomePage.index]. rewrite Ha. cbv beta iota.
    rewrite FreshAccountFacts.locale_setter_raises; [reflexivity|].
    rewrite lookup_insert_ne; [exact Hl|].
    intros E. vm_compute in E. discriminate.
Qed.

(** The game item of the index sample: its second subcategory link gets
    position 1. *)
Lemma setup_categories_subcategory_positions_witness :
  let tables := [[{| HomePage.gi_title := Some (Some (u "41"));
                     HomePage.gi_a_text := Some (u "Game");
                     HomePage.gi_group := Some [(Some (u "42"), u "EU")];
                     HomePage.gi_lists :=
                       [{| HomePage.ul_data_id := Some (u "41");
                           HomePage.ul_items :=
                             [Some (u "Gold", Some (u "https://funpay.com/chips/7/"));
                              Some (u "Items", Some (u "https://funpay.com/lots/8/"))] |}] |}]] in
  exists s,
    nth_error (HomePage.subcategories (fst (HomePage._setup_categories tables HomePage.empty_index)))
      (length (HomePage.subcategories HomePage.empty_index) + 1) = Some s /\
    HomePage.sub_position s = Z.of_nat 1.
Proof.
  intros tables. eexists. split; [vm_compute; reflexivity|].
  apply (setup_categories_subcategory_positions tables HomePage.empty_index 1).
  vm_compute. reflexivity.
Defined.

(** A new account with golden key [key] reading a logged-in home page. *)
Lemma parse_account_data_fresh_account_witness :
  let ad := {| HomePage.app_locale := Some (u "ru"); HomePage.app_user_id := Some 100;
               HomePage.app_csrf_token := Some (u "t0k3n") |} in
  let page := {| HomePage.user_link_name := Some (u "me");
                 HomePage.app_data := PyOk ad;
                 HomePage.logout_link := Some (Some (u "https://funpay.com/account/logout"));
                 HomePage.badge_trade := None; HomePage.badge_balance := None;
                 HomePage.badge_orders := None; HomePage.game_lists := [] |} in
  exists d,
    AccountObj.async_account_init (u "key") None None = PyOk d /\
    HomePage.user_link_name page = Some (u "me") /\ HomePage.app_data page = PyOk ad /\
    AccountObj.getattr d "locale" = PyRaise AttributeError /\
    (forall v, AccountObj.setattr d "locale" v = PyRaise AttributeError) /\
    HomePage.parse_account_data (fun _ => "RUB"%string) page
      {| HomePage.attrs := d; HomePage.index := HomePage.empty_index |} =
      ({| HomePage.attrs := <["username"%string := AccountObj.VStr (u "me")]> d;
          HomePage.index := HomePage.empty_index |}, PyRaise AttributeError).
Proof.
  intros ad page. eexists.
  match goal with |- ?A = PyOk ?d /\ _ => assert (Hd : A = PyOk d) by reflexivity end.
  assert (Hu : HomePage.user_link_name page = Some (u "me")) by reflexivity.
  assert (Ha : HomePage.app_data page = PyOk ad) by reflexivity.
  exact (conj Hd (conj Hu (conj Ha
    (parse_account_data_fresh_account _ _ _ _ _ _ _ _ _ Hd Hu Ha)))).
Defined.

(** [s.rsplit(" ", 1)] unpacked into two names, on a string whose last
    space is followed by [b], gives back what stands before and after that
    space. *)
Theorem rsplit_space_2_round_trip a b :
  ~ In 32 b -> HomePage.rsplit_space_2 (a ++ 32 :: b) = PyOk (a, b).
Proof.
  intros Hb. unfold HomePage.rsplit_space_2.
  rewrite rev_app_distr. cbn [rev]. rewrite <- app_assoc. cbn [app].
  rewrite IntStrFacts.split_on_app.
  2:{ apply Forall_rev. apply List.Forall_forall. intros c Hc ->. exact (Hb Hc). }
  pose proof (SplitJoinFacts.rsplit_join 32 (rev a)) as J.
  pose proof (SplitFacts.split_on_nonempty 32 (rev a)) as Ne.
  destruct (HomePage.split_on 32 (rev a)) as [|p ps]; [congruence|].
  cbn beta iota. rewrite J, !rev_involutive. reflexivity.
Qed.

(** [s.rsplit(" ", 1)] unpacked into two names raises [ValueError] on a
    string without a space. *)
Theorem rsplit_space_2_no_space s :
  ~ In 32 s -> HomePage.rsplit_space_2 s = PyRaise ValueError.
Proof.
  intros Hs. unfold HomePage.rsplit_space_2.
  rewrite IntStrFacts.split_on_none; [reflexivity|].
  apply Forall_rev. apply List.Forall_forall. intros c Hc ->. exact (Hs Hc).
Qed.


(** A balance badge text [1 234 ₽]: the amount before the last space. *)
Lemma rsplit_space_2_round_trip_witness :
  ~ In 32 (u "₽") /\ HomePage.rsplit_space_2 (u "1 234" ++ 32 :: u "₽") = PyOk (u "1 234", u "₽").
Proof.
  assert (H : ~ In 32 (u "₽")) by (vm_compute; intros [H|[]]; discriminate).
  exact (conj H (rsplit_space_2_round_trip _ _ H)).
Defined.

(** A badge text without a space. *)
Lemma rsplit_space_2_no_space_witness :
  ~ In 32 (u "1234") /\ HomePage.rsplit_space_2 (u "1234") = PyRaise ValueError.
Proof.
  assert (H : ~ In 32 (u "1234")) by (vm_compute; intros [H|[H|[H|[H|[]]]]]; discriminate).
  exact (conj H (rsplit_space_2_no_space _ H)).
Defined.
